(** * Rover ground station: recording handshake and child pipeline process

    A shallow embedding of two translation units of the rover control
    software,

    - [src/mission_control/maincontroller.cpp] (class [MainController]): the
      message senders, the dispatcher [onMainChannelMessageReceived] and the
      data-recording handshake with its watchdog;
    - [src/video_streamer/videostreamer.cpp] (class [VideoStreamer]): the
      child process that owns one GStreamer pipeline and reports to its
      parent over D-Bus.

    Both classes run on a single Qt event loop, so every slot is modelled as
    a function from the object's state to its new state together with the
    ordered list of calls it makes on its collaborators. *)

From Stdlib.Strings Require Import String Byte.
From Stdlib Require Import ZArith List Bool Lia.
Import ListNotations.

Local Open Scope Z_scope.

(* ------------------------------------------------------------------------- *)
(** * QDataStream                                                            *)
(* ------------------------------------------------------------------------- *)

(** The byte layout produced by [QDataStream] in its default configuration:
    integers are written most significant byte first, [bool] is one byte, a
    [QByteArray] is a [quint32] length followed by the data. *)
Module QDataStream.

Definition byte_of_Z (z : Z) : byte :=
  match Byte.of_N (Z.to_N (z mod 256)) with
  | Some b => b
  | None => x00
  end.

Definition Z_of_byte (b : byte) : Z := Z.of_N (Byte.to_N b).

(** [be_bytes n z]: the [n] low-order bytes of [z], big-endian. *)
Fixpoint be_bytes (n : nat) (z : Z) : list byte :=
  match n with
  | O => []
  | S k => byte_of_Z (Z.shiftr z (8 * Z.of_nat k)) :: be_bytes k z
  end.

Fixpoint be_value (acc : Z) (l : list byte) : Z :=
  match l with
  | [] => acc
  | b :: t => be_value (acc * 256 + Z_of_byte b) t
  end.

(** Two's complement reading of a [w]-bit unsigned value. *)
Definition to_signed (w : Z) (u : Z) : Z :=
  if u <? 2 ^ (w - 1) then u else u - 2 ^ w.

(** [stream << qint32], [stream << qint64]. *)
Definition write_qint32 (v : Z) : list byte := be_bytes 4 v.
Definition write_qint64 (v : Z) : list byte := be_bytes 8 v.

(** A read of [n] bytes.  When fewer than [n] bytes are left the device is
    drained and the read fails (status [ReadPastEnd]). *)
Definition read_block (n : nat) (l : list byte) : option (list byte) * list byte :=
  if (n <=? length l)%nat then (Some (firstn n l), skipn n l) else (None, []).

(** [stream >> qint32]: the value is zero when the read fails. *)
Definition read_qint32 (l : list byte) : Z * list byte :=
  match read_block 4 l with
  | (Some bs, rest) => (to_signed 32 (be_value 0 bs), rest)
  | (None, rest) => (0, rest)
  end.

Definition read_quint32 (l : list byte) : Z * list byte :=
  match read_block 4 l with
  | (Some bs, rest) => (be_value 0 bs, rest)
  | (None, rest) => (0, rest)
  end.

(** [stream >> bool]: one byte, true when it is not zero. *)
Definition read_bool (l : list byte) : bool * list byte :=
  match read_block 1 l with
  | (Some bs, rest) => (negb (be_value 0 bs =? 0), rest)
  | (None, rest) => (false, rest)
  end.

(** [stream >> QByteArray]: a length of [0xFFFFFFFF] is the null array; a
    short stream leaves the array empty. *)
Definition read_QByteArray (l : list byte) : list byte * list byte :=
  let (len, rest) := read_quint32 l in
  if len =? 4294967295 then ([], rest)
  else match read_block (Z.to_nat len) rest with
       | (Some bs, rest') => (bs, rest')
       | (None, rest') => ([], rest')
       end.

End QDataStream.

Import QDataStream.

(* ------------------------------------------------------------------------- *)
(** * Slots                                                                  *)
(* ------------------------------------------------------------------------- *)

(** A slot of an object with state [S] runs to completion on the event loop:
    it returns a value, leaves a new state and makes calls on collaborators,
    logged in order as values of [E]. *)
Definition Slot (S E A : Type) : Type := S -> A * S * list E.

Definition ret {S E A} (a : A) : Slot S E A := fun s => (a, s, []).

Definition bind {S E A B} (c : Slot S E A) (k : A -> Slot S E B) : Slot S E B :=
  fun s =>
    let '(a, s1, out1) := c s in
    let '(b, s2, out2) := k a s1 in
    (b, s2, out1 ++ out2).

Definition gets {S E A} (f : S -> A) : Slot S E A := fun s => (f s, s, []).
Definition modify {S E} (f : S -> S) : Slot S E unit := fun s => (tt, f s, []).
Definition emit {S E} (e : E) : Slot S E unit := fun s => (tt, s, [e]).

Definition state_of {S E A} (r : A * S * list E) : S := snd (fst r).
Definition output_of {S E A} (r : A * S * list E) : list E := snd r.

Declare Scope slot_scope.
Delimit Scope slot_scope with slot.
Notation "x <- c ;; k" := (bind c (fun x => k))
  (at level 61, c at next level, right associativity) : slot_scope.
Notation "c ;; k" := (bind c (fun _ => k))
  (at level 61, right associativity) : slot_scope.

(** How often a call satisfying [p] occurs in a log. *)
Definition count {E} (p : E -> bool) (out : list E) : nat :=
  length (filter p out).

(* ------------------------------------------------------------------------- *)
(** * Declarations the controller uses                                       *)
(* ------------------------------------------------------------------------- *)

(** The message tags named in [maincontroller.cpp]. *)
Inductive SharedMessageType : Type :=
| SharedMessage_RoverStatusUpdate
| SharedMessage_RoverMediaServerError
| SharedMessage_RoverGpsUpdate
| SharedMessage_RoverDriveOverrideStart
| SharedMessage_RoverDriveOverrideEnd
| SharedMessage_SensorUpdate
| SharedMessage_StartDataRecording
| SharedMessage_StopDataRecording
| SharedMessage_StopAllCameraStreams
| SharedMessage_RequestActivateAudioStream
| SharedMessage_RequestDeactivateAudioStream.

(** The [case] labels of the [switch] in [onMainChannelMessageReceived], in
    the order they are written. *)
Definition case_labels : list SharedMessageType :=
  [ SharedMessage_RoverStatusUpdate; SharedMessage_RoverMediaServerError;
    SharedMessage_RoverGpsUpdate; SharedMessage_RoverDriveOverrideStart;
    SharedMessage_RoverDriveOverrideEnd; SharedMessage_SensorUpdate;
    SharedMessage_StartDataRecording ].

(** The numeric values of the tags are declared in [core/constants.h], which
    is not part of the sources at hand; they are a parameter.  What C++
    itself guarantees about them is recorded with it: a tag is read and
    written through a [qint32], and the labels of one [switch] are pairwise
    different. *)
Record Constants : Type := {
  tagCode : SharedMessageType -> Z;
  tagCode_qint32 : forall t, - 2 ^ 31 <= tagCode t < 2 ^ 31;
  tagCode_case_labels : NoDup (map tagCode case_labels)
}.

Inductive RecordingState : Type :=
| RecordingState_Idle
| RecordingState_Waiting
| RecordingState_Recording.

Inductive NotificationType : Type :=
| NotificationType_Error
| NotificationType_Warning
| NotificationType_Info.

(** The three windows that display the recording state. *)
Inductive Window : Type :=
| controlWindow
| commentsWindow
| mainWindow.

(** [AudioFormat] is declared elsewhere.  The controller only asks whether
    the format is useable and streams its serialized form; [serialized] is
    the bytes that [stream << format.serialize()] appends. *)
Record AudioFormat : Type := {
  isUseable : bool;
  serialized : list byte
}.

(** The fields of [SettingsModel] read by [onSettingsApplied]. *)
Record SettingsModel : Type := {
  enableVideo : bool;
  enableHud : bool;
  selectedHudParallax : Z;
  selectedHudLatency : Z;
  enableAudio : bool;
  defaultAudioFormat : AudioFormat;
  selectedLatency : Z
}.

(** Modelled from the spec: class [CsvRecorder] (the object behind
    [_dataRecorder]) is not among the sources.  The spec calls it the local
    recorder, which "can be started" or not and is stopped by an explicit
    stop.  Its interface is the three members the controller calls; the two
    laws say that a stopped recorder is not recording and that a recorder
    which reports a successful start is recording. *)
Class CsvRecorder (R : Type) : Type := {
  isRecording : R -> bool;
  startLog : Z -> R -> bool * R;
  stopLog : R -> R;
  stopLog_not_recording : forall r, isRecording (stopLog r) = false;
  startLog_recording :
    forall t r, fst (startLog t r) = true -> isRecording (snd (startLog t r)) = true
}.

(** The calls the controller makes on its collaborators, in the order they
    are made.  Calls to the logger are left out. *)
Inductive Effect : Type :=
| SendMessage (message : list byte)
| Notify (type : NotificationType) (title text : string)
| SetRecordingState (w : Window) (state : RecordingState)
| SetMbedStatus (status : string)
| UpdateGpsLocation (location : list byte)
| AddLocation (location : list byte)
| NewData (data : list byte)
| StopVideo
| SetHudVisible (visible : bool)
| SetHudParallax (parallax : Z)
| SetHudLatency (latency : Z)
| SetSimulatedDelay (latency : Z)
| UpdateSimulatedLatency (latency : Z).

(* ------------------------------------------------------------------------- *)
(** * MainController                                                         *)
(* ------------------------------------------------------------------------- *)

Module MainController.
Section Controller.

Context (K : Constants).
Context {R : Type} {Rec : CsvRecorder R}.

(** The controller's members that the modelled slots touch, the recording
    state last shown by each window, and the part of the Qt event loop the
    controller relies on: the clock (milliseconds since the epoch) and the
    deadlines of the single-shot timers armed by [startDataRecording].
    Those timers all run the same closure, which captures [this] only. *)
Record State : Type := {
  _recordStartTime : Z;
  _dataRecorder : R;
  _settings : SettingsModel;
  audioMediaId : Z;
  shown_control : RecordingState;
  shown_comments : RecordingState;
  shown_main : RecordingState;
  clock : Z;
  timers : list Z
}.

Definition set_recordStartTime (t : Z) (s : State) : State :=
  {| _recordStartTime := t; _dataRecorder := _dataRecorder s;
     _settings := _settings s; audioMediaId := audioMediaId s;
     shown_control := shown_control s; shown_comments := shown_comments s;
     shown_main := shown_main s; clock := clock s; timers := timers s |}.

Definition set_dataRecorder (r : R) (s : State) : State :=
  {| _recordStartTime := _recordStartTime s; _dataRecorder := r;
     _settings := _settings s; audioMediaId := audioMediaId s;
     shown_control := shown_control s; shown_comments := shown_comments s;
     shown_main := shown_main s; clock := clock s; timers := timers s |}.

Definition set_settings (m : SettingsModel) (s : State) : State :=
  {| _recordStartTime := _recordStartTime s; _dataRecorder := _dataRecorder s;
     _settings := m; audioMediaId := audioMediaId s;
     shown_control := shown_control s; shown_comments := shown_comments s;
     shown_main := shown_main s; clock := clock s; timers := timers s |}.

Definition set_shown (w : Window) (st : RecordingState) (s : State) : State :=
  {| _recordStartTime := _recordStartTime s; _dataRecorder := _dataRecorder s;
     _settings := _settings s; audioMediaId := audioMediaId s;
     shown_control := match w with controlWindow => st | _ => shown_control s end;
     shown_comments := match w with commentsWindow => st | _ => shown_comments s end;
     shown_main := match w with mainWindow => st | _ => shown_main s end;
     clock := clock s; timers := timers s |}.

Definition set_clock (t : Z) (s : State) : State :=
  {| _recordStartTime := _recordStartTime s; _dataRecorder := _dataRecorder s;
     _settings := _settings s; audioMediaId := audioMediaId s;
     shown_control := shown_control s; shown_comments := shown_comments s;
     shown_main := shown_main s; clock := t; timers := timers s |}.

Definition set_timers (ts : list Z) (s : State) : State :=
  {| _recordStartTime := _recordStartTime s; _dataRecorder := _dataRecorder s;
     _settings := _settings s; audioMediaId := audioMediaId s;
     shown_control := shown_control s; shown_comments := shown_comments s;
     shown_main := shown_main s; clock := clock s; timers := ts |}.

Definition shown (w : Window) (s : State) : RecordingState :=
  match w with
  | controlWindow => shown_control s
  | commentsWindow => shown_comments s
  | mainWindow => shown_main s
  end.

(** ** Slots *)

Local Open Scope slot_scope.

Definition M (A : Type) : Type := Slot State Effect A.

(** Calls on collaborators. *)
Definition sendMessage (message : list byte) : M unit :=
  emit (SendMessage message).

Definition notify (type : NotificationType) (title text : string) : M unit :=
  emit (Notify type title text).

Definition setRecordingState (w : Window) (st : RecordingState) : M unit :=
  modify (set_shown w st) ;; emit (SetRecordingState w st).

(** [QTimer::singleShot(msec, this, watchdog)]. *)
Definition singleShot (msec : Z) : M unit :=
  modify (fun s => set_timers (timers s ++ [clock s + msec]) s).

(** ** The senders *)

Definition sendStartRecordCommandToRover : M unit :=
  t <- gets _recordStartTime ;;
  sendMessage (write_qint32 (tagCode K SharedMessage_StartDataRecording)
               ++ write_qint64 t).

Definition sendStopRecordCommandToRover : M unit :=
  sendMessage (write_qint32 (tagCode K SharedMessage_StopDataRecording)).

Definition stopDataRecording : M unit :=
  modify (fun s => set_dataRecorder (stopLog (_dataRecorder s)) s) ;;
  setRecordingState controlWindow RecordingState_Idle ;;
  setRecordingState commentsWindow RecordingState_Idle ;;
  setRecordingState mainWindow RecordingState_Idle ;;
  sendMessage (write_qint32 (tagCode K SharedMessage_StopDataRecording)).

(** The closure handed to [QTimer::singleShot] by [startDataRecording]. *)
Definition watchdog : M unit :=
  r <- gets _dataRecorder ;;
  if negb (isRecording r) then
    stopDataRecording ;;
    notify NotificationType_Error "Cannot Record Data"
      "The rover has not responded to the request to start data recording"
  else ret tt.

Definition startDataRecording : M unit :=
  now <- gets clock ;;
  modify (set_recordStartTime now) ;;
  sendStartRecordCommandToRover ;;
  setRecordingState controlWindow RecordingState_Waiting ;;
  setRecordingState commentsWindow RecordingState_Waiting ;;
  setRecordingState mainWindow RecordingState_Waiting ;;
  singleShot 5000.

Definition toggleDataRecording : M unit :=
  r <- gets _dataRecorder ;;
  if isRecording r then stopDataRecording else startDataRecording.

Definition stopAllRoverCameras : M unit :=
  emit StopVideo ;;
  sendMessage (write_qint32 (tagCode K SharedMessage_StopAllCameraStreams)).

Definition stopAudio : M unit :=
  sendMessage (write_qint32 (tagCode K SharedMessage_RequestDeactivateAudioStream)).

Definition startAudioStream (format : AudioFormat) : M unit :=
  if isUseable format then
    sendMessage (write_qint32 (tagCode K SharedMessage_RequestActivateAudioStream)
                 ++ serialized format)
  else ret tt.

(** [ui] is what [_controlWindow->updateSettingsModel(&_settings)] stores
    into [_settings]. *)
Definition onSettingsApplied (ui : SettingsModel) : M unit :=
  modify (set_settings ui) ;;
  (if enableVideo ui then ret tt else stopAllRoverCameras) ;;
  emit (SetHudVisible (enableHud ui)) ;;
  emit (SetHudParallax (selectedHudParallax ui)) ;;
  emit (SetHudLatency (selectedHudLatency ui)) ;;
  (if enableAudio ui then startAudioStream (defaultAudioFormat ui)
   else stopAudio) ;;
  emit (SetSimulatedDelay (selectedLatency ui)) ;;
  emit (UpdateSimulatedLatency (selectedLatency ui)).

(** ** The dispatcher *)

Definition onMainChannelMessageReceived (message : list byte) : M unit :=
  let (messageType, stream) := read_qint32 message in
  if messageType =? tagCode K SharedMessage_RoverStatusUpdate then
    let (mbedStatus, _) := read_bool stream in
    if negb mbedStatus then
      notify NotificationType_Error "Mbed Error"
        "The rover has lost connection to the mbed. Driving and data collection will no longer work." ;;
      emit (SetMbedStatus "Error")
    else emit (SetMbedStatus "Normal")
  else if messageType =? tagCode K SharedMessage_RoverMediaServerError then
    let (mediaId, _) := read_qint32 stream in
    audio <- gets audioMediaId ;;
    if mediaId =? audio then
      notify NotificationType_Warning "Audio Stream Error"
        "The rover encountered an error trying to stream audio."
    else
      notify NotificationType_Warning "Video Stream Error"
        "The rover encountered an error trying to stream this camera."
  else if messageType =? tagCode K SharedMessage_RoverGpsUpdate then
    emit (UpdateGpsLocation stream) ;;
    emit (AddLocation stream)
  else if messageType =? tagCode K SharedMessage_RoverDriveOverrideStart then
    notify NotificationType_Info "Network Driving Disabled"
      "The rover is being driven by serial override. Network drive commands will not be accepted." ;;
    emit (SetMbedStatus "Manual Override")
  else if messageType =? tagCode K SharedMessage_RoverDriveOverrideEnd then
    notify NotificationType_Info "Network Driving Enabled"
      "The rover has resumed accepting network drive commands." ;;
    emit (SetMbedStatus "Normal")
  else if messageType =? tagCode K SharedMessage_SensorUpdate then
    let (data, _) := read_QByteArray stream in
    emit (NewData data)
  else if messageType =? tagCode K SharedMessage_StartDataRecording then
    t <- gets _recordStartTime ;;
    r <- gets _dataRecorder ;;
    let (started, r') := startLog t r in
    modify (set_dataRecorder r') ;;
    (if negb started then
       stopDataRecording ;;
       notify NotificationType_Error "Cannot Record Data"
         "An error occurred attempting to start data logging." ;;
       sendStopRecordCommandToRover
     else ret tt) ;;
    setRecordingState controlWindow RecordingState_Recording ;;
    setRecordingState commentsWindow RecordingState_Recording
  else ret tt.

(** ** The audio client *)

(** [MediaClient::State]: the two states the controller tells apart, and any
    other. *)
Inductive MediaClientState : Type :=
| StreamingState
| ConnectingState
| OtherState.

(** The calls [onAudioClientStateChanged] makes on the audio player and the
    control window.  The player always plays from the local bounce address,
    so [Play] carries the format only. *)
Inductive AudioCall : Type :=
| Play (format : AudioFormat)
| StopPlayer
| UpdateFromSettingsModel (settings : SettingsModel).

Definition set_enableAudio (b : bool) (m : SettingsModel) : SettingsModel :=
  {| enableVideo := enableVideo m; enableHud := enableHud m;
     selectedHudParallax := selectedHudParallax m;
     selectedHudLatency := selectedHudLatency m;
     enableAudio := b; defaultAudioFormat := defaultAudioFormat m;
     selectedLatency := selectedLatency m |}.

(** [format] is what [_audioClient->getAudioFormat()] returns. *)
Definition onAudioClientStateChanged (state : MediaClientState)
    (format : AudioFormat) : Slot State AudioCall unit :=
  match state with
  | StreamingState =>
      emit (Play format) ;;
      modify (fun s => set_settings (set_enableAudio true (_settings s)) s) ;;
      m <- gets _settings ;;
      emit (UpdateFromSettingsModel m)
  | ConnectingState =>
      emit StopPlayer ;;
      modify (fun s => set_settings (set_enableAudio false (_settings s)) s) ;;
      m <- gets _settings ;;
      emit (UpdateFromSettingsModel m)
  | OtherState => ret tt
  end.

Fixpoint audioClientStates (changes : list (MediaClientState * AudioFormat))
    : Slot State AudioCall unit :=
  match changes with
  | [] => ret tt
  | (state, format) :: rest =>
      onAudioClientStateChanged state format ;; audioClientStates rest
  end.

(** ** The event loop *)

Fixpoint fire (due : list Z) : M unit :=
  match due with
  | [] => ret tt
  | _ :: rest => watchdog ;; fire rest
  end.

(** [dt] milliseconds pass with no other event: the clock advances and the
    timers whose deadline is reached run, oldest first. *)
Definition elapse (dt : Z) : M unit :=
  now <- gets clock ;;
  pending <- gets timers ;;
  modify (set_clock (now + dt)) ;;
  modify (set_timers (filter (fun d => negb (d <=? now + dt)) pending)) ;;
  fire (filter (fun d => d <=? now + dt) pending).

Inductive Event : Type :=
| RecordButtonClicked
| SettingsApplied (ui : SettingsModel)
| MessageReceived (message : list byte)
| Elapse (dt : Z).

Definition handle (e : Event) : M unit :=
  match e with
  | RecordButtonClicked => toggleDataRecording
  | SettingsApplied ui => onSettingsApplied ui
  | MessageReceived message => onMainChannelMessageReceived message
  | Elapse dt => elapse dt
  end.

Fixpoint run (es : list Event) : M unit :=
  match es with
  | [] => ret tt
  | e :: rest => handle e ;; run rest
  end.

End Controller.
End MainController.

(* ------------------------------------------------------------------------- *)
(** * VideoStreamer                                                          *)
(* ------------------------------------------------------------------------- *)

(** A [QString] as its UTF-16 code units. *)
Definition QString : Type := list N.

(** [QString::toLatin1]: a code unit above [0xFF] becomes a question mark. *)
Definition toLatin1 (s : QString) : list byte :=
  map (fun c => match Byte.of_N c with Some b => b | None => "?"%byte end) s.

(** The states a pipeline is put into by the streamer. *)
Inductive GstState : Type :=
| StateNull
| StatePlaying.

(** The bus messages told apart by [onBusMessage]; [MessageError] carries
    [error().message()]. *)
Inductive GstMessage : Type :=
| MessageEos
| MessageError (message : QString)
| MessageOther.

(** An argument of a D-Bus call. *)
Inductive Arg : Type :=
| ArgInt64 (v : Z)
| ArgString (s : string)
| ArgByteArray (b : list byte).

(** The calls the streamer makes: on its parent over D-Bus
    ([_parentInterface->call(QDBus::NoBlock, method, args...)]) and on the
    GStreamer pipeline with handle [p].  Every call is taken to return; its
    result, where it has one, is not looked at by the streamer. *)
Inductive Call : Type :=
| ParentCall (method : string) (args : list Arg)
| Create (p : nat)
| AddSignalWatch (p : nat)
| Connect (p : nat)
| Disconnect (p : nat)
| Add (p : nat) (description : string)
| SetState (p : nat) (st : GstState)
| Clear (p : nat).

Module VideoStreamer.
Section Streamer.

(** The builders of the pipeline description live in
    [core/gstreamerutil.h]; they are parameters.  The conversions of the
    address and profile arguments are part of them. *)
Variable createRtpV4L2EncodeString :
  string -> string -> Z -> string -> bool -> string.
Variable createRtpStereoV4L2EncodeString :
  string -> string -> string -> Z -> string -> bool -> string.

Local Open Scope slot_scope.

Definition LogTag : string := "VideoStreamer".

(** [pid] is the result of [getpid()]; [_pipeline] is the handle of the
    pipeline the streamer holds, if any; [created] counts the pipelines
    made so far and names the next one. *)
Record State : Type := {
  pid : Z;
  _pipeline : option nat;
  created : nat
}.

Definition set_pipeline (p : option nat) (s : State) : State :=
  {| pid := pid s; _pipeline := p; created := created s |}.

Definition set_created (n : nat) (s : State) : State :=
  {| pid := pid s; _pipeline := _pipeline s; created := n |}.

Definition M (A : Type) : Type := Slot State Call A.

Definition call (method : string) (args : Z -> list Arg) : M unit :=
  me <- gets pid ;;
  emit (ParentCall method (args me)).

Definition stopPrivate (sendReady : bool) : M unit :=
  held <- gets _pipeline ;;
  match held with
  | Some p =>
      call "onChildLogInfo"
        (fun me => [ArgInt64 me; ArgString LogTag; ArgString "Freeing pipeline"]) ;;
      emit (Disconnect p) ;;
      emit (SetState p StateNull) ;;
      modify (set_pipeline None) ;;
      emit (Clear p) ;;
      if sendReady then call "onChildReady" (fun me => [ArgInt64 me])
      else ret tt
  | None => ret tt
  end.

Definition stop : M unit := stopPrivate true.

Definition createPipeline : M nat :=
  p <- gets created ;;
  modify (set_created (S p)) ;;
  emit (Create p) ;;
  emit (AddSignalWatch p) ;;
  emit (Connect p) ;;
  ret p.

Definition stream (device address : string) (port : Z) (profile : string)
    (vaapi : bool) : M unit :=
  stopPrivate false ;;
  p <- createPipeline ;;
  modify (set_pipeline (Some p)) ;;
  let binStr := createRtpV4L2EncodeString device address port profile vaapi in
  call "onChildLogInfo"
    (fun me => [ArgInt64 me; ArgString LogTag;
                ArgString ("Starting GStreamer with command " ++ binStr)]) ;;
  emit (Add p binStr) ;;
  emit (SetState p StatePlaying) ;;
  call "onChildStreaming" (fun me => [ArgInt64 me]).

Definition streamStereo (leftDevice rightDevice address : string) (port : Z)
    (profile : string) (vaapi : bool) : M unit :=
  stopPrivate false ;;
  p <- createPipeline ;;
  modify (set_pipeline (Some p)) ;;
  let binStr :=
    createRtpStereoV4L2EncodeString leftDevice rightDevice address port
      profile vaapi in
  call "onChildLogInfo"
    (fun me => [ArgInt64 me; ArgString LogTag;
                ArgString ("Starting GStreamer with command " ++ binStr)]) ;;
  emit (Add p binStr) ;;
  emit (SetState p StatePlaying) ;;
  call "onChildStreaming" (fun me => [ArgInt64 me]).

Definition onBusMessage (message : GstMessage) : M unit :=
  match message with
  | MessageEos =>
      call "onChildError"
        (fun me => [ArgInt64 me;
                    ArgString "Received EOS message from GStreamer"]) ;;
      stopPrivate true
  | MessageError detail =>
      call "onChildError"
        (fun me => [ArgInt64 me; ArgByteArray (toLatin1 detail)]) ;;
      stopPrivate true
  | MessageOther => ret tt
  end.

(** What the constructor finds on the session bus: whether it is connected,
    whether the streamer can be registered as an object, and whether the
    interface made for the parent is valid. *)
Record SessionBus : Type := {
  isConnected : bool;
  registerObject : bool;
  isValid : bool
}.

(** The constructor, in the process [me]: it ends the process with an exit
    code, or leaves a streamer that holds no pipeline and has told the parent
    that it is ready. *)
Definition construct (bus : SessionBus) (me : Z) : Z + State * list Call :=
  if negb (isConnected bus) then inl 12
  else if negb (registerObject bus) then inl 13
  else if negb (isValid bus) then inl 14
  else inr ({| pid := me; _pipeline := None; created := 0 |},
            [ParentCall "onChildReady" [ArgInt64 me]]).

(** The destructor. *)
Definition destructor : M unit := stopPrivate false.

(** The D-Bus slots and the bus signal, as the event loop delivers them.
    The signal is connected to the bus of the held pipeline only and is
    disconnected when that pipeline is freed, so a bus message is
    delivered only while a pipeline is held. *)
Inductive Event : Type :=
| CallStop
| CallStream (device address : string) (port : Z) (profile : string)
    (vaapi : bool)
| CallStreamStereo (leftDevice rightDevice address : string) (port : Z)
    (profile : string) (vaapi : bool)
| BusMessage (message : GstMessage).

Definition handle (e : Event) : M unit :=
  match e with
  | CallStop => stop
  | CallStream d a p pr v => stream d a p pr v
  | CallStreamStereo l r a p pr v => streamStereo l r a p pr v
  | BusMessage m =>
      held <- gets _pipeline ;;
      match held with
      | Some _ => onBusMessage m
      | None => ret tt
      end
  end.

Fixpoint run (es : list Event) : M unit :=
  match es with
  | [] => ret tt
  | e :: rest => handle e ;; run rest
  end.

End Streamer.
End VideoStreamer.

(* ------------------------------------------------------------------------- *)
(** * Observations on logs                                                   *)
(* ------------------------------------------------------------------------- *)

Fixpoint bytes_eqb (a b : list byte) : bool :=
  match a, b with
  | [], [] => true
  | x :: a', y :: b' => Byte.eqb x y && bytes_eqb a' b'
  | _, _ => false
  end.

Definition Window_eqb (a b : Window) : bool :=
  match a, b with
  | controlWindow, controlWindow
  | commentsWindow, commentsWindow
  | mainWindow, mainWindow => true
  | _, _ => false
  end.

(** The messages sent on the main channel, in order. *)
Fixpoint sent (out : list Effect) : list (list byte) :=
  match out with
  | [] => []
  | SendMessage m :: rest => m :: sent rest
  | _ :: rest => sent rest
  end.

(** The recording states a window is told to show, in order. *)
Fixpoint shown_sequence (w : Window) (out : list Effect) : list RecordingState :=
  match out with
  | [] => []
  | SetRecordingState w' st :: rest =>
      if Window_eqb w w' then st :: shown_sequence w rest
      else shown_sequence w rest
  | _ :: rest => shown_sequence w rest
  end.

Definition is_message (m : list byte) (e : Effect) : bool :=
  match e with
  | SendMessage m' => bytes_eqb m m'
  | _ => false
  end.

Definition is_error_notification (e : Effect) : bool :=
  match e with
  | Notify NotificationType_Error _ _ => true
  | _ => false
  end.

(** The stop-recording message: the tag alone. *)
Definition stopMessage (K : Constants) : list byte :=
  write_qint32 (tagCode K SharedMessage_StopDataRecording).

(** A start-recording message: the tag followed by the start time. *)
Definition startMessage (K : Constants) (startTime : Z) : list byte :=
  write_qint32 (tagCode K SharedMessage_StartDataRecording)
  ++ write_qint64 startTime.

Definition is_parent_call (method : string) (c : Call) : bool :=
  match c with
  | ParentCall m _ => String.eqb method m
  | _ => false
  end.

(** A teardown: the pipeline is put into the null state. *)
Definition is_teardown (c : Call) : bool :=
  match c with
  | SetState _ StateNull => true
  | _ => false
  end.

Definition is_clear (c : Call) : bool :=
  match c with
  | Clear _ => true
  | _ => false
  end.

(* ------------------------------------------------------------------------- *)
(** * States and logs the properties speak of                                *)
(* ------------------------------------------------------------------------- *)

Section HandshakeStates.

Import MainController.

Context (K : Constants).
Context {R : Type} {Rec : CsvRecorder R}.

Local Abbreviation State := (@MainController.State R).

(** The state left by [stopDataRecording]. *)
Definition stopped (s : State) : State :=
  set_shown mainWindow RecordingState_Idle
    (set_shown commentsWindow RecordingState_Idle
       (set_shown controlWindow RecordingState_Idle
          (set_dataRecorder (stopLog (_dataRecorder s)) s))).

(** The state left by [startDataRecording]. *)
Definition requested (s : State) : State :=
  set_timers (timers s ++ [clock s + 5000])
    (set_shown mainWindow RecordingState_Waiting
       (set_shown commentsWindow RecordingState_Waiting
          (set_shown controlWindow RecordingState_Waiting
             (set_recordStartTime (clock s) s)))).

Definition timeoutNotification : Effect :=
  Notify NotificationType_Error "Cannot Record Data"
    "The rover has not responded to the request to start data recording".

Definition startFailedNotification : Effect :=
  Notify NotificationType_Error "Cannot Record Data"
    "An error occurred attempting to start data logging.".

Definition shownAll (st : RecordingState) : list Effect :=
  [ SetRecordingState controlWindow st;
    SetRecordingState commentsWindow st;
    SetRecordingState mainWindow st ].

(** The state left by a start-recording message when [startLog] succeeds. *)
Definition acknowledged (s : State) : State :=
  set_shown commentsWindow RecordingState_Recording
    (set_shown controlWindow RecordingState_Recording
       (set_dataRecorder
          (snd (startLog (_recordStartTime s) (_dataRecorder s))) s)).

(** The state left by a start-recording message when [startLog] fails. *)
Definition refused (s : State) : State :=
  set_shown commentsWindow RecordingState_Recording
    (set_shown controlWindow RecordingState_Recording
       (stopped
          (set_dataRecorder
             (snd (startLog (_recordStartTime s) (_dataRecorder s))) s))).

(** What follows the tag, for each tag the controller sends. *)
Definition layout (t : SharedMessageType) (payload : list byte) : Prop :=
  match t with
  | SharedMessage_StartDataRecording =>
      exists startTime, payload = write_qint64 startTime
  | SharedMessage_RequestActivateAudioStream =>
      exists format, isUseable format = true /\ payload = serialized format
  | SharedMessage_StopDataRecording
  | SharedMessage_StopAllCameraStreams
  | SharedMessage_RequestDeactivateAudioStream => payload = []
  | _ => False
  end.

(** A message that is a tag, written as a [qint32], followed by the fields
    of that tag. *)
Definition tagged (m : list byte) : Prop :=
  exists t payload, m = write_qint32 (tagCode K t) ++ payload /\ layout t payload.

End HandshakeStates.

(** The four bytes of a 32-bit integer and the eight bytes of a 64-bit
    integer, most significant first, each as a number from 0 to 255. *)
Definition qint32_bytes (v : Z) : list Z :=
  [ (v / 2 ^ 24) mod 256; (v / 2 ^ 16) mod 256; (v / 2 ^ 8) mod 256; v mod 256 ].

Definition qint64_bytes (v : Z) : list Z :=
  [ (v / 2 ^ 56) mod 256; (v / 2 ^ 48) mod 256; (v / 2 ^ 40) mod 256;
    (v / 2 ^ 32) mod 256; (v / 2 ^ 24) mod 256; (v / 2 ^ 16) mod 256;
    (v / 2 ^ 8) mod 256; v mod 256 ].

(** A message whose first four bytes are those of a tag and whose other
    bytes are the fields of that tag. *)
Definition begins_with_tag (K : Constants) (m : list byte) : Prop :=
  exists t payload,
    m = write_qint32 (tagCode K t) ++ payload /\
    layout t payload /\
    map Z_of_byte (firstn 4 m) = qint32_bytes (tagCode K t) /\
    skipn 4 m = payload /\
    read_qint32 m = (tagCode K t, payload).

(** The calls made when the held pipeline [p] is freed. *)
Definition teardown (me : Z) (p : nat) (sendReady : bool) : list Call :=
  [ ParentCall "onChildLogInfo"
      [ArgInt64 me; ArgString VideoStreamer.LogTag; ArgString "Freeing pipeline"];
    Disconnect p;
    SetState p StateNull;
    Clear p ]
  ++ (if sendReady then [ParentCall "onChildReady" [ArgInt64 me]] else []).

(** The calls made to build and start pipeline [p] from [binStr]. *)
Definition startup (me : Z) (p : nat) (binStr : string) : list Call :=
  [ Create p;
    AddSignalWatch p;
    Connect p;
    ParentCall "onChildLogInfo"
      [ArgInt64 me; ArgString VideoStreamer.LogTag;
       ArgString ("Starting GStreamer with command " ++ binStr)];
    Add p binStr;
    SetState p StatePlaying;
    ParentCall "onChildStreaming" [ArgInt64 me] ].

(** What [onBusMessage] passes to [onChildError] after the process
    identifier. *)
Definition reported (message : GstMessage) : list Arg :=
  match message with
  | MessageEos => [ArgString "Received EOS message from GStreamer"]
  | MessageError detail => [ArgByteArray (toLatin1 detail)]
  | MessageOther => []
  end.

Definition is_create (c : Call) : bool :=
  match c with
  | Create _ => true
  | _ => false
  end.

Definition is_playing (c : Call) : bool :=
  match c with
  | SetState _ StatePlaying => true
  | _ => false
  end.

(** The number of pipelines held: one or none. *)
Definition held (s : VideoStreamer.State) : nat :=
  match VideoStreamer._pipeline s with
  | Some _ => 1
  | None => 0
  end.

(** The calls made to free the pipeline held in [s], if any. *)
Definition freed (s : VideoStreamer.State) (sendReady : bool) : list Call :=
  match VideoStreamer._pipeline s with
  | Some p => teardown (VideoStreamer.pid s) p sendReady
  | None => []
  end.

(** The handle of the held pipeline, if any, is one that was handed out. *)
Definition handle_known (s : VideoStreamer.State) : Prop :=
  forall p, VideoStreamer._pipeline s = Some p -> (p < VideoStreamer.created s)%nat.

(** A call to the parent names the process [me] first. *)
Definition names_process (me : Z) (c : Call) : Prop :=
  match c with
  | ParentCall _ (ArgInt64 v :: _) => v = me
  | ParentCall _ _ => False
  | _ => True
  end.

(** Whether audio is enabled after a sequence of state changes of the audio
    client, [b] being the flag before: the last change to Streaming or
    Connecting decides. *)
Fixpoint audioEnabledAfter (b : bool)
    (changes : list (MainController.MediaClientState * AudioFormat)) : bool :=
  match changes with
  | [] => b
  | (MainController.StreamingState, _) :: rest => audioEnabledAfter true rest
  | (MainController.ConnectingState, _) :: rest => audioEnabledAfter false rest
  | (MainController.OtherState, _) :: rest => audioEnabledAfter b rest
  end.

(** An event that does not turn the clock back. *)
Definition forward (e : MainController.Event) : Prop :=
  match e with
  | MainController.Elapse dt => 0 <= dt
  | _ => True
  end.

(** Every pending watchdog is to run later than now and at most 5000 ms
    from now. *)
Definition timers_in_window {R : Type} (s : @MainController.State R) : Prop :=
  Forall (fun d => MainController.clock s < d <= MainController.clock s + 5000)
    (MainController.timers s).

(** The messages [onSettingsApplied] sends for the settings [ui]. *)
Definition settingsMessages (K : Constants) (ui : SettingsModel) : list (list byte) :=
  (if enableVideo ui then []
   else [write_qint32 (tagCode K SharedMessage_StopAllCameraStreams)])
  ++ (if enableAudio ui then
        if isUseable (defaultAudioFormat ui) then
          [write_qint32 (tagCode K SharedMessage_RequestActivateAudioStream)
           ++ serialized (defaultAudioFormat ui)]
        else []
      else [write_qint32 (tagCode K SharedMessage_RequestDeactivateAudioStream)]).

(** The calls made for a status update that reports the mbed lost. *)
Definition mbedLost : list Effect :=
  [ Notify NotificationType_Error "Mbed Error"
      "The rover has lost connection to the mbed. Driving and data collection will no longer work.";
    SetMbedStatus "Error" ].

Definition audioStreamWarning : Effect :=
  Notify NotificationType_Warning "Audio Stream Error"
    "The rover encountered an error trying to stream audio.".

Definition videoStreamWarning : Effect :=
  Notify NotificationType_Warning "Video Stream Error"
    "The rover encountered an error trying to stream this camera.".

(* ------------------------------------------------------------------------- *)
(** * Instances used in examples                                             *)
(* ------------------------------------------------------------------------- *)

(** Tags numbered from zero in the order they are listed above. *)
Definition ordinal (t : SharedMessageType) : Z :=
  match t with
  | SharedMessage_RoverStatusUpdate => 0
  | SharedMessage_RoverMediaServerError => 1
  | SharedMessage_RoverGpsUpdate => 2
  | SharedMessage_RoverDriveOverrideStart => 3
  | SharedMessage_RoverDriveOverrideEnd => 4
  | SharedMessage_SensorUpdate => 5
  | SharedMessage_StartDataRecording => 6
  | SharedMessage_StopDataRecording => 7
  | SharedMessage_StopAllCameraStreams => 8
  | SharedMessage_RequestActivateAudioStream => 9
  | SharedMessage_RequestDeactivateAudioStream => 10
  end.

Definition ordinalConstants : Constants :=
  {| tagCode := ordinal;
     tagCode_qint32 :=
       fun t => ltac:(destruct t; cbv; split; congruence);
     tagCode_case_labels :=
       ltac:(cbn; repeat constructor; cbn; intros H;
             repeat (destruct H as [H|H]; [discriminate H|]); exact H) |}.

(** Tags numbered from one, so that no tag is zero. *)
Definition ordinalFromOneConstants : Constants :=
  {| tagCode := fun t => ordinal t + 1;
     tagCode_qint32 :=
       fun t => ltac:(destruct t; cbv; split; congruence);
     tagCode_case_labels :=
       ltac:(cbn; repeat constructor; cbn; intros H;
             repeat (destruct H as [H|H]; [discriminate H|]); exact H) |}.

(** A recorder that starts exactly when its log file can be opened. *)
Record FileRecorder : Type := {
  recording : bool;
  writable : bool
}.

Definition FileRecorder_start (t : Z) (r : FileRecorder) : bool * FileRecorder :=
  (writable r, {| recording := writable r; writable := writable r |}).

Definition FileRecorder_stop (r : FileRecorder) : FileRecorder :=
  {| recording := false; writable := writable r |}.

#[export] Instance FileRecorder_CsvRecorder : CsvRecorder FileRecorder :=
  {| isRecording := recording;
     startLog := FileRecorder_start;
     stopLog := FileRecorder_stop;
     stopLog_not_recording := fun r => eq_refl;
     startLog_recording := fun t r H => H |}.

(** The controller at rest: nothing recorded, every window idle, no timer
    pending, the clock at [t0]. *)
Definition atRest (can_write : bool) (t0 : Z) : @MainController.State FileRecorder :=
  {| MainController._recordStartTime := 0;
     MainController._dataRecorder := {| recording := false; writable := can_write |};
     MainController._settings :=
       {| enableVideo := false; enableHud := false; selectedHudParallax := 0;
          selectedHudLatency := 0; enableAudio := false;
          defaultAudioFormat := {| isUseable := false; serialized := [] |};
          selectedLatency := 0 |};
     MainController.audioMediaId := 0;
     MainController.shown_control := RecordingState_Idle;
     MainController.shown_comments := RecordingState_Idle;
     MainController.shown_main := RecordingState_Idle;
     MainController.clock := t0;
     MainController.timers := [] |}.

(** The streamer with process identifier 4242 holding its first pipeline. *)
Definition streaming : VideoStreamer.State :=
  {| VideoStreamer.pid := 4242;
     VideoStreamer._pipeline := Some 0%nat;
     VideoStreamer.created := 1 |}.

(** The streamer with process identifier 4242 holding no pipeline. *)
Definition idle : VideoStreamer.State :=
  {| VideoStreamer.pid := 4242;
     VideoStreamer._pipeline := None;
     VideoStreamer.created := 1 |}.

(** Builders that return the name of the device. *)
Definition deviceOnly (device address : string) (port : Z) (profile : string)
    (vaapi : bool) : string := device.

Definition leftDeviceOnly (leftDevice rightDevice address : string) (port : Z)
    (profile : string) (vaapi : bool) : string := leftDevice.

(* ------------------------------------------------------------------------- *)
(** * Properties of QDataStream                                              *)
(* ------------------------------------------------------------------------- *)

Lemma Z_of_byte_of_Z (z : Z) : Z_of_byte (byte_of_Z z) = z mod 256.
Proof.
  unfold Z_of_byte, byte_of_Z.
  assert (Hb : 0 <= z mod 256 < 256) by (apply Z.mod_pos_bound; lia).
  destruct (Byte.of_N (Z.to_N (z mod 256))) as [b|] eqn:E.
  - apply Byte.to_of_N in E. rewrite E. lia.
  - apply Byte.of_N_None_iff in E. lia.
Qed.

Lemma be_bytes_length (n : nat) (z : Z) : length (be_bytes n z) = n.
Proof. induction n as [|k IH]; simpl; [reflexivity | now rewrite IH]. Qed.

Lemma be_value_be_bytes (n : nat) (z acc : Z) :
  be_value acc (be_bytes n z) = acc * 256 ^ Z.of_nat n + z mod 256 ^ Z.of_nat n.
Proof.
  revert acc. induction n as [|k IH]; intros acc.
  - simpl. rewrite Z.mod_1_r. lia.
  - cbn [be_bytes be_value]. rewrite IH, Z_of_byte_of_Z.
    rewrite Z.shiftr_div_pow2 by lia.
    rewrite Z.pow_mul_r by lia. change (2 ^ 8) with 256.
    replace (Z.of_nat (S k)) with (Z.of_nat k + 1) by lia.
    rewrite Z.pow_add_r by lia. change (256 ^ 1) with 256.
    assert (Hp : 0 < 256 ^ Z.of_nat k) by (apply Z.pow_pos_nonneg; lia).
    rewrite (Z.rem_mul_r z (256 ^ Z.of_nat k) 256) by lia.
    ring.
Qed.

Lemma read_block_app (n : nat) (bs rest : list byte) :
  length bs = n -> read_block n (bs ++ rest) = (Some bs, rest).
Proof.
  intros H. unfold read_block.
  rewrite length_app, H.
  replace (n <=? n + length rest)%nat with true
    by (symmetry; apply Nat.leb_le; lia).
  subst n. f_equal.
  - f_equal. induction bs as [|b bs IH]; simpl; [reflexivity | now rewrite IH].
  - induction bs as [|b bs IH]; simpl; [reflexivity | exact IH].
Qed.

(** A [qint32] written to a stream is read back unchanged, whatever
    follows it. *)
Lemma read_write_qint32 (v : Z) (rest : list byte) :
  - 2 ^ 31 <= v < 2 ^ 31 ->
  read_qint32 (write_qint32 v ++ rest) = (v, rest).
Proof.
  intros Hv. unfold read_qint32, write_qint32.
  rewrite read_block_app by apply be_bytes_length.
  rewrite be_value_be_bytes. f_equal.
  change (256 ^ Z.of_nat 4) with 4294967296.
  unfold to_signed. change (2 ^ (32 - 1)) with 2147483648.
  change (2 ^ 32) with 4294967296. change (2 ^ 31) with 2147483648 in Hv.
  destruct (Z.ltb_spec (0 * 4294967296 + v mod 4294967296) 2147483648) as [H|H];
    pose proof (Z.mod_pos_bound v 4294967296 ltac:(lia)) as Hm;
    destruct (Z_lt_le_dec v 0) as [Hn|Hn].
  - rewrite <- (Z.mod_add v 1 4294967296) in H by lia.
    rewrite Z.mod_small in H by lia. lia.
  - rewrite Z.mod_small by lia. lia.
  - rewrite <- (Z.mod_add v 1 4294967296) by lia.
    rewrite Z.mod_small by lia. lia.
  - rewrite Z.mod_small in H by lia. lia.
Qed.

Arguments write_qint32 : simpl never.
Arguments write_qint64 : simpl never.
Arguments read_qint32 : simpl never.

(* ------------------------------------------------------------------------- *)
(** * Properties of the recording handshake                                  *)
(* ------------------------------------------------------------------------- *)

Lemma NoDup_map_injective {A B : Type} (f : A -> B) (l : list A) :
  NoDup (map f l) ->
  forall a b, In a l -> In b l -> f a = f b -> a = b.
Proof.
  induction l as [|x l IH]; intros Hnd a b Ha Hb Hf; [destruct Ha|].
  cbn in Hnd. inversion Hnd as [|? ? Hx Hl]; subst.
  destruct Ha as [Ha|Ha], Hb as [Hb|Hb]; subst.
  - reflexivity.
  - exfalso. apply Hx. rewrite Hf. now apply in_map.
  - exfalso. apply Hx. rewrite <- Hf. now apply in_map.
  - now apply IH.
Qed.

Lemma bytes_eqb_refl (m : list byte) : bytes_eqb m m = true.
Proof.
  induction m as [|b m IH]; [reflexivity|].
  cbn. rewrite IH, andb_true_r. now apply Byte.byte_dec_lb.
Qed.

Lemma bytes_eqb_length (a b : list byte) :
  length a <> length b -> bytes_eqb a b = false.
Proof.
  revert b. induction a as [|x a IH]; intros [|y b] H; cbn in *;
    try reflexivity; try congruence.
  rewrite IH by congruence. apply andb_false_r.
Qed.

Lemma sent_app (a b : list Effect) : sent (a ++ b) = sent a ++ sent b.
Proof.
  induction a as [|e a IH]; [reflexivity|].
  destruct e; cbn; rewrite IH; reflexivity.
Qed.

Section Handshake.

Import MainController.

Context (K : Constants).
Context {R : Type} {Rec : CsvRecorder R}.

Local Abbreviation State := (@MainController.State R).

Lemma stopDataRecording_eq (s : State) :
  stopDataRecording K s =
  (tt, stopped s, shownAll RecordingState_Idle ++ [SendMessage (stopMessage K)]).
Proof. reflexivity. Qed.

Lemma startDataRecording_eq (s : State) :
  startDataRecording K s =
  (tt, requested s,
   SendMessage (startMessage K (clock s)) :: shownAll RecordingState_Waiting).
Proof. reflexivity. Qed.

Lemma toggle_not_recording (s : State) :
  isRecording (_dataRecorder s) = false ->
  toggleDataRecording K s = startDataRecording K s.
Proof.
  intros H. unfold toggleDataRecording, bind, gets. cbn. rewrite H.
  reflexivity.
Qed.

Lemma toggle_recording (s : State) :
  isRecording (_dataRecorder s) = true ->
  toggleDataRecording K s = stopDataRecording K s.
Proof.
  intros H. unfold toggleDataRecording, bind, gets. cbn. rewrite H.
  reflexivity.
Qed.

Lemma watchdog_recording (s : State) :
  isRecording (_dataRecorder s) = true -> watchdog K s = (tt, s, []).
Proof.
  intros H. unfold watchdog, bind, gets. cbn. rewrite H. reflexivity.
Qed.

Lemma watchdog_not_recording (s : State) :
  isRecording (_dataRecorder s) = false ->
  watchdog K s =
  (tt, stopped s,
   shownAll RecordingState_Idle
   ++ [SendMessage (stopMessage K); timeoutNotification]).
Proof.
  intros H. unfold watchdog, bind, gets. cbn. rewrite H. reflexivity.
Qed.

Lemma fire_recording (due : list Z) (s : State) :
  isRecording (_dataRecorder s) = true -> fire K due s = (tt, s, []).
Proof.
  intros H. induction due as [|d due IH]; [reflexivity|].
  cbn [fire]. unfold bind. rewrite watchdog_recording by exact H.
  rewrite IH. reflexivity.
Qed.

(** The tags of the other [case] labels differ from the start tag. *)
Lemma start_tag_differs (t : SharedMessageType) :
  In t case_labels -> t <> SharedMessage_StartDataRecording ->
  (tagCode K SharedMessage_StartDataRecording =? tagCode K t) = false.
Proof.
  intros Hin Hne. apply Z.eqb_neq. intros Heq. apply Hne. symmetry.
  apply (NoDup_map_injective (tagCode K) case_labels (tagCode_case_labels K));
    [cbn; tauto | exact Hin | exact Heq].
Qed.

Ltac other_label :=
  rewrite start_tag_differs by ((cbn; tauto) || discriminate).

Lemma start_message_started (payload : list byte) (s : State) :
  fst (startLog (_recordStartTime s) (_dataRecorder s)) = true ->
  onMainChannelMessageReceived K
    (write_qint32 (tagCode K SharedMessage_StartDataRecording) ++ payload) s =
  (tt, acknowledged s,
   [ SetRecordingState controlWindow RecordingState_Recording;
     SetRecordingState commentsWindow RecordingState_Recording ]).
Proof.
  intros H. unfold onMainChannelMessageReceived.
  rewrite read_write_qint32 by apply tagCode_qint32.
  repeat other_label. rewrite Z.eqb_refl.
  unfold acknowledged, bind, gets. cbn.
  destruct (startLog (_recordStartTime s) (_dataRecorder s)) as [ok r'].
  cbn in H. subst ok. reflexivity.
Qed.

Lemma start_message_not_started (payload : list byte) (s : State) :
  fst (startLog (_recordStartTime s) (_dataRecorder s)) = false ->
  onMainChannelMessageReceived K
    (write_qint32 (tagCode K SharedMessage_StartDataRecording) ++ payload) s =
  (tt, refused s,
   shownAll RecordingState_Idle
   ++ [ SendMessage (stopMessage K);
        startFailedNotification;
        SendMessage (stopMessage K);
        SetRecordingState controlWindow RecordingState_Recording;
        SetRecordingState commentsWindow RecordingState_Recording ]).
Proof.
  intros H. unfold onMainChannelMessageReceived.
  rewrite read_write_qint32 by apply tagCode_qint32.
  repeat other_label. rewrite Z.eqb_refl.
  unfold refused, bind, gets. cbn.
  destruct (startLog (_recordStartTime s) (_dataRecorder s)) as [ok r'].
  cbn in H. subst ok. reflexivity.
Qed.

(** ** Timers *)

Lemma elapse_eq (dt : Z) (s : State) :
  elapse K dt s =
  fire K (filter (fun d => d <=? clock s + dt) (timers s))
    (set_timers (filter (fun d => negb (d <=? clock s + dt)) (timers s))
       (set_clock (clock s + dt) s)).
Proof.
  unfold elapse, bind, gets, modify. cbn.
  destruct (fire K _ _) as [[[] s'] out]. reflexivity.
Qed.

(** While the recorder is recording, the passing of time has no effect
    beyond the clock and the removal of the timers that ran. *)
Lemma elapse_recording (dt : Z) (s : State) :
  isRecording (_dataRecorder s) = true ->
  elapse K dt s =
  (tt,
   set_timers (filter (fun d => negb (d <=? clock s + dt)) (timers s))
     (set_clock (clock s + dt) s),
   []).
Proof.
  intros H. rewrite elapse_eq. now apply fire_recording.
Qed.

Lemma elapse_one_pending (d dt : Z) (s : State) :
  timers s = [d] -> clock s + dt < d ->
  elapse K dt s = (tt, set_timers [d] (set_clock (clock s + dt) s), []).
Proof.
  intros Ht Hlt. rewrite elapse_eq, Ht. cbn.
  replace (d <=? clock s + dt) with false by (symmetry; apply Z.leb_gt; lia).
  reflexivity.
Qed.

Lemma elapse_one_due (d dt : Z) (s : State) :
  timers s = [d] -> d <= clock s + dt ->
  elapse K dt s = watchdog K (set_timers [] (set_clock (clock s + dt) s)).
Proof.
  intros Ht Hle. rewrite elapse_eq, Ht. cbn [filter].
  replace (d <=? clock s + dt) with true by (symmetry; apply Z.leb_le; lia).
  cbn [negb fire]. unfold bind.
  destruct (watchdog K _) as [[[] s'] out]. cbn [ret]. now rewrite app_nil_r.
Qed.

(** ** The handshake, step by step *)

Lemma run_cons (e : Event) (es : list Event) (s : State) :
  run K (e :: es) s =
  (tt, state_of (run K es (state_of (handle K e s))),
   output_of (handle K e s) ++ output_of (run K es (state_of (handle K e s)))).
Proof.
  cbn [run]. unfold bind, state_of, output_of.
  destruct (handle K e s) as [[[] s1] o1]. cbn.
  destruct (run K es s1) as [[[] s2] o2]. reflexivity.
Qed.

Lemma run_nil (s : State) : run K [] s = (tt, s, []).
Proof. reflexivity. Qed.

(** The operator clicks the record button while nothing is recorded and no
    timer is pending, and less than 5000 ms pass. *)
Lemma request_pending (d : Z) (s : State) :
  isRecording (_dataRecorder s) = false ->
  timers s = [] ->
  0 <= d < 5000 ->
  run K [RecordButtonClicked; Elapse d] s =
  (tt,
   set_timers [clock s + 5000] (set_clock (clock s + d) (requested s)),
   SendMessage (startMessage K (clock s)) :: shownAll RecordingState_Waiting).
Proof.
  intros Hrec Ht Hd.
  rewrite run_cons. cbn [handle].
  rewrite toggle_not_recording, startDataRecording_eq by exact Hrec.
  unfold state_of, output_of. cbn [fst snd].
  rewrite run_cons, run_nil. cbn [handle].
  rewrite (elapse_one_pending (clock s + 5000));
    [ | cbn; now rewrite Ht | cbn; lia ].
  unfold state_of, output_of. cbn [fst snd]. now rewrite !app_nil_r.
Qed.

Lemma state_of_result {A : Type} (a : A) (s : State) (out : list Effect) :
  state_of (a, s, out) = s.
Proof. reflexivity. Qed.

Lemma output_of_result {A : Type} (a : A) (s : State) (out : list Effect) :
  output_of (a, s, out) = out.
Proof. reflexivity. Qed.

Ltac results := rewrite ?state_of_result, ?output_of_result, ?app_nil_r.

Lemma run_app (es1 es2 : list Event) (s : State) :
  run K (es1 ++ es2) s =
  (tt, state_of (run K es2 (state_of (run K es1 s))),
   output_of (run K es1 s) ++ output_of (run K es2 (state_of (run K es1 s)))).
Proof.
  revert s. induction es1 as [|e es1 IH]; intros s.
  - cbn [app]. rewrite run_nil. unfold state_of, output_of. cbn.
    now destruct (run K es2 s) as [[[] s2] o2].
  - cbn [app]. rewrite !run_cons, IH. unfold state_of, output_of. cbn [fst snd].
    now rewrite app_assoc.
Qed.

Lemma stop_is_not_start (t : Z) :
  bytes_eqb (stopMessage K) (startMessage K t) = false.
Proof.
  apply bytes_eqb_length. unfold stopMessage, startMessage, write_qint32, write_qint64.
  rewrite length_app, !be_bytes_length. lia.
Qed.

(** C1, as the code has it.  The operator clicks the record button while
    nothing is recorded and no watchdog of an earlier request is pending; the rover's start-recording message arrives less
    than 5000 ms later and the recorder starts.  Then, however much time
    passes afterwards (so also once the watchdog has run), the control and
    comments windows have been taken from Waiting to Recording exactly once,
    the recorder is recording, the only message sent is the start request
    (so no stop message), and no error notification has been raised. *)
Theorem start_acknowledged_in_time
    (s : State) (payload : list byte) (d1 d2 : Z) :
  isRecording (_dataRecorder s) = false ->
  timers s = [] ->
  0 <= d1 < 5000 ->
  0 <= d2 ->
  fst (startLog (clock s) (_dataRecorder s)) = true ->
  let ack := write_qint32 (tagCode K SharedMessage_StartDataRecording) ++ payload in
  let waiting := run K [RecordButtonClicked; Elapse d1] s in
  let final :=
    run K [RecordButtonClicked; Elapse d1; MessageReceived ack; Elapse d2] s in
  shown controlWindow (state_of waiting) = RecordingState_Waiting /\
  shown_sequence controlWindow (output_of final)
    = [RecordingState_Waiting; RecordingState_Recording] /\
  shown_sequence commentsWindow (output_of final)
    = [RecordingState_Waiting; RecordingState_Recording] /\
  shown controlWindow (state_of final) = RecordingState_Recording /\
  shown commentsWindow (state_of final) = RecordingState_Recording /\
  isRecording (_dataRecorder (state_of final)) = true /\
  sent (output_of final) = [startMessage K (clock s)] /\
  count (is_message (stopMessage K)) (output_of final) = 0%nat /\
  count is_error_notification (output_of final) = 0%nat.
Proof.
  intros Hrec Ht Hd1 Hd2 Hok ack waiting final.
  assert (Hw : waiting =
    (tt, set_timers [clock s + 5000] (set_clock (clock s + d1) (requested s)),
     SendMessage (startMessage K (clock s)) :: shownAll RecordingState_Waiting))
    by (apply request_pending; assumption).
  set (s1 := set_timers [clock s + 5000] (set_clock (clock s + d1) (requested s))) in *.
  assert (Hack : onMainChannelMessageReceived K ack s1 =
    (tt, acknowledged s1,
     [ SetRecordingState controlWindow RecordingState_Recording;
       SetRecordingState commentsWindow RecordingState_Recording ]))
    by (apply start_message_started; exact Hok).
  assert (Hrec2 : isRecording (_dataRecorder (acknowledged s1)) = true)
    by (apply (startLog_recording (clock s) (_dataRecorder s)); exact Hok).
  assert (Hf : output_of final =
    SendMessage (startMessage K (clock s)) :: shownAll RecordingState_Waiting
    ++ [ SetRecordingState controlWindow RecordingState_Recording;
         SetRecordingState commentsWindow RecordingState_Recording ]
    /\ state_of final =
       set_timers
         (filter (fun d => negb (d <=? clock (acknowledged s1) + d2))
            (timers (acknowledged s1)))
         (set_clock (clock (acknowledged s1) + d2) (acknowledged s1))).
  { subst final.
    change [RecordButtonClicked; Elapse d1; MessageReceived ack; Elapse d2]
      with ([RecordButtonClicked; Elapse d1] ++ [MessageReceived ack; Elapse d2]).
    rewrite run_app. fold waiting. rewrite Hw. results.
    rewrite !run_cons, run_nil. cbn [handle]. rewrite Hack. results.
    rewrite elapse_recording by exact Hrec2. results.
    split; reflexivity. }
  destruct Hf as [Hout Hst]. rewrite Hw, Hout, Hst.
  repeat split; try reflexivity; try exact Hrec2.
  unfold count. cbn [shownAll app filter is_message].
  now rewrite stop_is_not_start.
Qed.

(** C2, as the code has it.  The operator clicks the record button while
    nothing is recorded and no watchdog of an earlier request is pending, and 5000 ms or more pass with no message from the
    rover.  Then every window has gone from Waiting to Idle, the recorder is
    not recording, no timer is left, and besides the start request exactly
    one stop message has been sent and exactly one error notification
    raised. *)
Theorem start_not_acknowledged (s : State) (d : Z) :
  isRecording (_dataRecorder s) = false ->
  timers s = [] ->
  5000 <= d ->
  let final := run K [RecordButtonClicked; Elapse d] s in
  (forall w, shown_sequence w (output_of final)
             = [RecordingState_Waiting; RecordingState_Idle]) /\
  (forall w, shown w (state_of final) = RecordingState_Idle) /\
  isRecording (_dataRecorder (state_of final)) = false /\
  timers (state_of final) = [] /\
  sent (output_of final) = [startMessage K (clock s); stopMessage K] /\
  count (is_message (stopMessage K)) (output_of final) = 1%nat /\
  count is_error_notification (output_of final) = 1%nat.
Proof.
  intros Hrec Ht Hd final.
  assert (Hf : final =
    (tt, stopped (set_timers [] (set_clock (clock s + d) (requested s))),
     (SendMessage (startMessage K (clock s)) :: shownAll RecordingState_Waiting)
     ++ shownAll RecordingState_Idle
     ++ [SendMessage (stopMessage K); timeoutNotification])).
  { subst final. rewrite !run_cons, run_nil. cbn [handle].
    rewrite toggle_not_recording, startDataRecording_eq by exact Hrec. results.
    rewrite (elapse_one_due (clock s + 5000));
      [ | cbn; now rewrite Ht | cbn; lia ].
    rewrite watchdog_not_recording by exact Hrec. results.
    reflexivity. }
  rewrite Hf. results.
  repeat split; try (intros []; reflexivity); try reflexivity.
  - apply stopLog_not_recording.
  - unfold count. cbn [shownAll app filter is_message timeoutNotification].
    now rewrite stop_is_not_start, bytes_eqb_refl.
Qed.

(** The same when the silence comes in two stretches, the first shorter than
    5000 ms. *)
Lemma start_not_acknowledged_in_steps (s : State) (d1 d2 : Z) :
  isRecording (_dataRecorder s) = false ->
  timers s = [] ->
  0 <= d1 < 5000 ->
  5000 <= d1 + d2 ->
  run K [RecordButtonClicked; Elapse d1; Elapse d2] s
  = run K [RecordButtonClicked; Elapse (d1 + d2)] s.
Proof.
  intros Hrec Ht Hd1 Hd2.
  change [RecordButtonClicked; Elapse d1; Elapse d2]
    with ([RecordButtonClicked; Elapse d1] ++ [Elapse d2]).
  rewrite run_app, request_pending by assumption. results.
  rewrite !run_cons, !run_nil. cbn [handle].
  rewrite toggle_not_recording, startDataRecording_eq by exact Hrec. results.
  rewrite (elapse_one_due (clock s + 5000) d2) by (reflexivity || (cbn; lia)).
  rewrite (elapse_one_due (clock s + 5000) (d1 + d2));
    [ | cbn; now rewrite Ht | cbn; lia ].
  rewrite !watchdog_not_recording by exact Hrec. results.
  cbn [clock set_timers set_clock]. now rewrite Z.add_assoc.
Qed.

(** C3, as the code has it.  The watchdog is a single-shot timer that is
    never cancelled: the start-recording message that starts the recorder
    leaves the pending timers as they are.  A timer runs once, when its
    deadline is reached, and is then gone; whenever the recorder is
    recording at that moment it changes no window, sends nothing and
    notifies nothing. *)
Theorem watchdog_silent_while_recording
    (s : State) (payload : list byte) :
  fst (startLog (_recordStartTime s) (_dataRecorder s)) = true ->
  let ack := write_qint32 (tagCode K SharedMessage_StartDataRecording) ++ payload in
  let s1 := state_of (onMainChannelMessageReceived K ack s) in
  isRecording (_dataRecorder s1) = true /\
  timers s1 = timers s /\
  forall (s2 : State) (dt : Z),
    isRecording (_dataRecorder s2) = true ->
    output_of (elapse K dt s2) = [] /\
    (forall w, shown w (state_of (elapse K dt s2)) = shown w s2) /\
    _dataRecorder (state_of (elapse K dt s2)) = _dataRecorder s2 /\
    timers (state_of (elapse K dt s2))
      = filter (fun d => negb (d <=? clock s2 + dt)) (timers s2).
Proof.
  intros Hok ack s1. subst s1 ack.
  rewrite start_message_started by exact Hok. results.
  split; [ now apply startLog_recording | split; [reflexivity|] ].
  intros s2 dt Hrec. rewrite elapse_recording by exact Hrec. results.
  repeat split; try (intros []; reflexivity).
Qed.

(** C4, what the code does.  When a start-recording message arrives and
    [startLog] fails, the recorder is stopped and every window is set to
    Idle, but the control and comments windows are then set to Recording,
    which is what they show at the end; two stop messages are sent, not one;
    one error notification is raised. *)
Theorem start_refused_shows_recording (s : State) (payload : list byte) :
  fst (startLog (_recordStartTime s) (_dataRecorder s)) = false ->
  let ack := write_qint32 (tagCode K SharedMessage_StartDataRecording) ++ payload in
  let final := onMainChannelMessageReceived K ack s in
  shown controlWindow (state_of final) = RecordingState_Recording /\
  shown commentsWindow (state_of final) = RecordingState_Recording /\
  shown mainWindow (state_of final) = RecordingState_Idle /\
  isRecording (_dataRecorder (state_of final)) = false /\
  sent (output_of final) = [stopMessage K; stopMessage K] /\
  count (is_message (stopMessage K)) (output_of final) = 2%nat /\
  count is_error_notification (output_of final) = 1%nat.
Proof.
  intros Hfail ack final. subst final ack.
  rewrite start_message_not_started by exact Hfail. results.
  repeat split; try reflexivity.
  - apply stopLog_not_recording.
  - unfold count. cbn [shownAll app filter is_message startFailedNotification].
    now rewrite bytes_eqb_refl.
Qed.

(** C5.  [stopDataRecording], in any state: every window is told Idle once
    and shows Idle, the recorder is not recording, exactly one message is
    sent and it is the stop message; no timer is armed, so nothing is
    awaited. *)
Theorem stop_is_unconditional (s : State) :
  let final := stopDataRecording K s in
  (forall w, shown w (state_of final) = RecordingState_Idle) /\
  (forall w, shown_sequence w (output_of final) = [RecordingState_Idle]) /\
  isRecording (_dataRecorder (state_of final)) = false /\
  sent (output_of final) = [stopMessage K] /\
  count (is_message (stopMessage K)) (output_of final) = 1%nat /\
  timers (state_of final) = timers s.
Proof.
  intros final. subst final. rewrite stopDataRecording_eq. results.
  repeat split; try (intros []; reflexivity); try reflexivity.
  - apply stopLog_not_recording.
  - unfold count. cbn [shownAll app filter is_message].
    now rewrite bytes_eqb_refl.
Qed.

(** C10.  [toggleDataRecording] looks at the recorder only: whenever the
    recorder is not recording it is [startDataRecording].  So a second click
    while the windows show Waiting, [d] < 5000 ms after the first, stores the
    new time as start time, sends a second start message carrying it and
    arms a second watchdog next to the first; it sends no stop message. *)
Theorem toggle_while_waiting (s : State) (d : Z) :
  isRecording (_dataRecorder s) = false ->
  timers s = [] ->
  0 <= d < 5000 ->
  let waiting := state_of (run K [RecordButtonClicked; Elapse d] s) in
  let again := toggleDataRecording K waiting in
  (forall w, shown w waiting = RecordingState_Waiting) /\
  _recordStartTime waiting = clock s /\
  timers waiting = [clock s + 5000] /\
  again = startDataRecording K waiting /\
  _recordStartTime (state_of again) = clock s + d /\
  sent (output_of again) = [startMessage K (clock s + d)] /\
  timers (state_of again) = [clock s + 5000; clock s + d + 5000] /\
  (forall w, shown w (state_of again) = RecordingState_Waiting) /\
  count (is_message (stopMessage K)) (output_of again) = 0%nat.
Proof.
  intros Hrec Ht Hd waiting again. subst again waiting.
  rewrite request_pending by assumption. results.
  rewrite toggle_not_recording by exact Hrec.
  rewrite startDataRecording_eq. results.
  repeat split; try (intros []; reflexivity); try reflexivity.
  unfold count. cbn [shownAll app filter is_message].
  now rewrite stop_is_not_start.
Qed.

(** ** The layout of the messages sent *)

Lemma tagged_start (t : Z) :
  tagged K (write_qint32 (tagCode K SharedMessage_StartDataRecording) ++ write_qint64 t).
Proof.
  exists SharedMessage_StartDataRecording, (write_qint64 t).
  split; [reflexivity | now exists t].
Qed.

Lemma tagged_activate (f : AudioFormat) :
  isUseable f = true ->
  tagged K (write_qint32 (tagCode K SharedMessage_RequestActivateAudioStream)
          ++ serialized f).
Proof.
  intros H. exists SharedMessage_RequestActivateAudioStream, (serialized f).
  split; [reflexivity | now exists f].
Qed.

Lemma tagged_alone (t : SharedMessageType) :
  layout t [] -> tagged K (write_qint32 (tagCode K t)).
Proof.
  intros H. exists t, []. split; [now rewrite app_nil_r | exact H].
Qed.

(** The tag of a tagged message is its first four bytes, and reading the
    message back gives the tag and leaves the fields. *)
Lemma tagged_read (m : list byte) :
  tagged K m ->
  exists t payload,
    firstn 4 m = write_qint32 (tagCode K t) /\
    read_qint32 m = (tagCode K t, payload) /\
    layout t payload.
Proof.
  intros (t & payload & -> & Hl). exists t, payload. split; [|split].
  - unfold write_qint32. generalize (be_bytes_length 4 (tagCode K t)).
    destruct (be_bytes 4 (tagCode K t)) as [|a [|b [|c [|d [|e l]]]]];
      cbn; intros H; try discriminate H. reflexivity.
  - apply read_write_qint32, tagCode_qint32.
  - exact Hl.
Qed.

Lemma output_bind {A B : Type} (c : M A) (k : A -> M B) (s : State) :
  output_of (bind c k s)
  = output_of (c s) ++ output_of (k (fst (fst (c s))) (state_of (c s))).
Proof.
  unfold bind, output_of, state_of.
  destruct (c s) as [[a s1] o1]. cbn.
  destruct (k a s1) as [[b s2] o2]. reflexivity.
Qed.

Ltac all_tagged :=
  cbn;
  repeat (apply Forall_cons || apply Forall_nil || apply tagged_start
          || (apply tagged_alone; reflexivity)
          || (apply tagged_activate; assumption)).

Lemma watchdog_tagged (s : State) :
  Forall (tagged K) (sent (output_of (watchdog K s))).
Proof.
  destruct (isRecording (_dataRecorder s)) eqn:H.
  - rewrite watchdog_recording by exact H. all_tagged.
  - rewrite watchdog_not_recording by exact H. all_tagged.
Qed.

Lemma fire_tagged (pending : list Z) (s : State) :
  Forall (tagged K) (sent (output_of (fire K pending s))).
Proof.
  revert s. induction pending as [|d pending IH]; intros s; [all_tagged|].
  cbn [fire]. rewrite output_bind, sent_app. apply Forall_app. split.
  - apply watchdog_tagged.
  - apply IH.
Qed.

Lemma toggle_tagged (s : State) :
  Forall (tagged K) (sent (output_of (toggleDataRecording K s))).
Proof.
  destruct (isRecording (_dataRecorder s)) eqn:H.
  - rewrite toggle_recording, stopDataRecording_eq by exact H. all_tagged.
  - rewrite toggle_not_recording, startDataRecording_eq by exact H. all_tagged.
Qed.

Lemma settings_tagged (ui : SettingsModel) (s : State) :
  Forall (tagged K) (sent (output_of (onSettingsApplied K ui s))).
Proof.
  unfold onSettingsApplied, startAudioStream, bind.
  destruct (enableVideo ui), (enableAudio ui);
    try destruct (isUseable (defaultAudioFormat ui)) eqn:Hu; all_tagged.
Qed.

Lemma received_tagged (message : list byte) (s : State) :
  Forall (tagged K) (sent (output_of (onMainChannelMessageReceived K message s))).
Proof.
  unfold onMainChannelMessageReceived.
  destruct (read_qint32 message) as [messageType stream].
  repeat match goal with
         | |- context [if ?x =? ?y then _ else _] => destruct (x =? y)
         end; try solve [all_tagged].
  - destruct (read_bool stream) as [[] ?]; all_tagged.
  - destruct (read_qint32 stream) as [mediaId ?]. unfold bind, gets.
    destruct (mediaId =? audioMediaId s); all_tagged.
  - destruct (read_QByteArray stream). all_tagged.
  - unfold bind, gets.
    destruct (startLog (_recordStartTime s) (_dataRecorder s)) as [[] r'];
      all_tagged.
Qed.

Lemma write_qint32_bytes (v : Z) :
  map Z_of_byte (write_qint32 v) = qint32_bytes v.
Proof.
  unfold write_qint32, qint32_bytes. cbn [be_bytes map].
  rewrite !Z_of_byte_of_Z, !Z.shiftr_div_pow2 by (cbn; lia).
  cbn [Z.of_nat Pos.of_succ_nat Pos.succ Z.mul Pos.mul Pos.add].
  change (2 ^ 0) with 1. now rewrite Z.div_1_r.
Qed.

Lemma write_qint64_bytes (v : Z) :
  map Z_of_byte (write_qint64 v) = qint64_bytes v.
Proof.
  unfold write_qint64, qint64_bytes. cbn [be_bytes map].
  rewrite !Z_of_byte_of_Z, !Z.shiftr_div_pow2 by (cbn; lia).
  cbn [Z.of_nat Pos.of_succ_nat Pos.succ Z.mul Pos.mul Pos.add].
  change (2 ^ 0) with 1. now rewrite Z.div_1_r.
Qed.

Lemma tagged_begins_with_tag (m : list byte) :
  tagged K m -> begins_with_tag K m.
Proof.
  intros (t & payload & -> & Hl). exists t, payload.
  assert (H4 : firstn 4 (write_qint32 (tagCode K t) ++ payload)
               = write_qint32 (tagCode K t)
               /\ skipn 4 (write_qint32 (tagCode K t) ++ payload) = payload).
  { unfold write_qint32. generalize (be_bytes_length 4 (tagCode K t)).
    destruct (be_bytes 4 (tagCode K t)) as [|a [|b [|c [|d [|e l]]]]];
      cbn; intros H; try discriminate H. split; reflexivity. }
  destruct H4 as [Hf Hs]. rewrite Hf, Hs.
  split; [reflexivity | split; [exact Hl | split; [|split; [reflexivity|]]]].
  - apply write_qint32_bytes.
  - apply read_write_qint32, tagCode_qint32.
Qed.

(** C8.  Every message the controller sends, whatever happens to it, begins
    with the four bytes of its tag, most significant first, and the bytes
    after them are the fields of that tag: the start time for
    start-recording, the serialized format for activate-audio, nothing for
    the others; read back as a 32-bit integer, the message gives the tag and
    leaves the fields.  In particular [sendStartRecordCommandToRover] sends
    the four bytes of the start tag followed by the eight bytes of
    [_recordStartTime], and [startAudioStream] with a useable format sends
    the four bytes of the activate tag followed by the serialized format (and
    nothing with a format that is not useable). *)
Theorem tag_precedes_payload (es : list Event) (s : State) (f : AudioFormat) :
  Forall (tagged K) (sent (output_of (run K es s))) /\
  Forall (begins_with_tag K) (sent (output_of (run K es s))) /\
  sent (output_of (sendStartRecordCommandToRover K s))
    = [write_qint32 (tagCode K SharedMessage_StartDataRecording)
       ++ write_qint64 (_recordStartTime s)] /\
  map (map Z_of_byte) (sent (output_of (sendStartRecordCommandToRover K s)))
    = [qint32_bytes (tagCode K SharedMessage_StartDataRecording)
       ++ qint64_bytes (_recordStartTime s)] /\
  sent (output_of (startAudioStream K f s))
    = (if isUseable f
       then [write_qint32 (tagCode K SharedMessage_RequestActivateAudioStream)
             ++ serialized f]
       else []) /\
  map (map Z_of_byte) (sent (output_of (startAudioStream K f s)))
    = (if isUseable f
       then [qint32_bytes (tagCode K SharedMessage_RequestActivateAudioStream)
             ++ map Z_of_byte (serialized f)]
       else []).
Proof.
  assert (Hrun : Forall (tagged K) (sent (output_of (run K es s)))).
  { revert s. induction es as [|e es IH]; intros s; [all_tagged|].
    rewrite run_cons. results. rewrite sent_app. apply Forall_app. split.
    - destruct e; cbn [handle].
      + apply toggle_tagged.
      + apply settings_tagged.
      + apply received_tagged.
      + rewrite elapse_eq. apply fire_tagged.
    - apply IH. }
  split; [exact Hrun|].
  split; [eapply Forall_impl; [apply tagged_begins_with_tag | exact Hrun]|].
  split; [reflexivity|].
  split.
  { change (sent (output_of (sendStartRecordCommandToRover K s)))
      with [write_qint32 (tagCode K SharedMessage_StartDataRecording)
            ++ write_qint64 (_recordStartTime s)].
    cbn [map]. now rewrite map_app, write_qint32_bytes, write_qint64_bytes. }
  unfold startAudioStream. destruct (isUseable f); split; try reflexivity.
  change (sent (output_of (sendMessage
            (write_qint32 (tagCode K SharedMessage_RequestActivateAudioStream)
             ++ serialized f) s)))
    with [write_qint32 (tagCode K SharedMessage_RequestActivateAudioStream)
          ++ serialized f].
  cbn [map]. now rewrite map_app, write_qint32_bytes.
Qed.

End Handshake.

(* ------------------------------------------------------------------------- *)
(** * Properties of the child pipeline process                               *)
(* ------------------------------------------------------------------------- *)

Section Pipeline.

Import VideoStreamer.

Variable createRtpV4L2EncodeString :
  string -> string -> Z -> string -> bool -> string.
Variable createRtpStereoV4L2EncodeString :
  string -> string -> string -> Z -> string -> bool -> string.

Local Abbreviation stream := (stream createRtpV4L2EncodeString).
Local Abbreviation streamStereo := (streamStereo createRtpStereoV4L2EncodeString).
Local Abbreviation run :=
  (run createRtpV4L2EncodeString createRtpStereoV4L2EncodeString).

Lemma stopPrivate_held (sendReady : bool) (p : nat) (s : State) :
  _pipeline s = Some p ->
  stopPrivate sendReady s
  = (tt, set_pipeline None s, teardown (pid s) p sendReady).
Proof.
  intros H. unfold stopPrivate, bind, gets. cbn. rewrite H.
  destruct sendReady; reflexivity.
Qed.

Lemma stopPrivate_none (sendReady : bool) (s : State) :
  _pipeline s = None -> stopPrivate sendReady s = (tt, s, []).
Proof.
  intros H. unfold stopPrivate, bind, gets. cbn. rewrite H. reflexivity.
Qed.

Lemma stream_eq (device address : string) (port : Z) (profile : string)
    (vaapi : bool) (s : State) :
  stream device address port profile vaapi s
  = (tt,
     set_pipeline (Some (created s)) (set_created (S (created s)) s),
     match _pipeline s with
     | Some old => teardown (pid s) old false
     | None => []
     end
     ++ startup (pid s) (created s)
          (createRtpV4L2EncodeString device address port profile vaapi)).
Proof.
  unfold VideoStreamer.stream, bind at 1.
  destruct (_pipeline s) as [old|] eqn:H.
  - rewrite (stopPrivate_held false old) by exact H. reflexivity.
  - rewrite stopPrivate_none by exact H. reflexivity.
Qed.

Lemma streamStereo_eq (leftDevice rightDevice address : string) (port : Z)
    (profile : string) (vaapi : bool) (s : State) :
  streamStereo leftDevice rightDevice address port profile vaapi s
  = (tt,
     set_pipeline (Some (created s)) (set_created (S (created s)) s),
     match _pipeline s with
     | Some old => teardown (pid s) old false
     | None => []
     end
     ++ startup (pid s) (created s)
          (createRtpStereoV4L2EncodeString leftDevice rightDevice address port
             profile vaapi)).
Proof.
  unfold VideoStreamer.streamStereo, bind at 1.
  destruct (_pipeline s) as [old|] eqn:H.
  - rewrite (stopPrivate_held false old) by exact H. reflexivity.
  - rewrite stopPrivate_none by exact H. reflexivity.
Qed.

Lemma count_app {E : Type} (p : E -> bool) (a b : list E) :
  count p (a ++ b) = (count p a + count p b)%nat.
Proof. unfold count. now rewrite filter_app, length_app. Qed.

Lemma onBusMessage_held (s : State) (p : nat) (message : GstMessage) :
  _pipeline s = Some p ->
  message <> MessageOther ->
  onBusMessage message s
  = (tt, set_pipeline None s,
     ParentCall "onChildError" (ArgInt64 (pid s) :: reported message)
     :: teardown (pid s) p true).
Proof.
  intros Hp Hm. destruct message as [|detail|]; [| |congruence];
    unfold onBusMessage, bind at 1; cbn [call bind gets emit];
    rewrite (stopPrivate_held true p) by exact Hp; reflexivity.
Qed.

(** C6.  On an end-of-stream or error message from the bus of the held
    pipeline [p], the streamer makes exactly one [onChildError] call, first
    of all, carrying its process identifier and the text (a fixed text for
    end-of-stream, the Latin-1 form of the error's message for an error),
    and then frees the pipeline once: [p] is put into the null state once and
    cleared once, and no pipeline is held afterwards.  A bus message that
    follows adds nothing, the signal being disconnected. *)
Theorem bus_failure_reported_once
    (s : State) (p : nat) (message next : GstMessage) :
  _pipeline s = Some p ->
  message <> MessageOther ->
  let final := onBusMessage message s in
  output_of final
    = ParentCall "onChildError" (ArgInt64 (pid s) :: reported message)
      :: teardown (pid s) p true /\
  _pipeline (state_of final) = None /\
  count (is_parent_call "onChildError") (output_of final) = 1%nat /\
  count is_teardown (output_of final) = 1%nat /\
  count is_clear (output_of final) = 1%nat /\
  run [BusMessage message; BusMessage next] s = final.
Proof.
  intros Hp Hm final. subst final.
  cbn [VideoStreamer.run handle]. unfold bind at 1 2, gets at 1. rewrite Hp.
  rewrite (onBusMessage_held s p) by assumption.
  repeat split; reflexivity.
Qed.

(** C7.  A second [stop] right after a first does nothing at all, so the two
    together make the calls of the first alone: one teardown when a pipeline
    is held, none otherwise.  With no pipeline held, [stop] changes nothing
    and makes no call. *)
Theorem stop_idempotent (s : State) :
  let once := stop s in
  let twice := run [CallStop; CallStop] s in
  stop (state_of once) = (tt, state_of once, []) /\
  twice = once /\
  (forall p, _pipeline s = Some p ->
     output_of twice = teardown (pid s) p true /\
     count is_teardown (output_of twice) = 1%nat /\
     count is_clear (output_of twice) = 1%nat) /\
  (_pipeline s = None -> once = (tt, s, [])).
Proof.
  intros once twice. subst once twice.
  assert (Hstop : stop s =
    match _pipeline s with
    | Some p => (tt, set_pipeline None s, teardown (pid s) p true)
    | None => (tt, s, [])
    end).
  { unfold stop. destruct (_pipeline s) as [p|] eqn:H;
      [now apply stopPrivate_held | now apply stopPrivate_none]. }
  assert (Hagain : stop (state_of (stop s)) = (tt, state_of (stop s), [])).
  { apply stopPrivate_none. rewrite Hstop.
    destruct (_pipeline s) eqn:H; [reflexivity | exact H]. }
  assert (Htwice : run [CallStop; CallStop] s = stop s).
  { cbn [VideoStreamer.run handle]. unfold bind.
    destruct (stop s) as [[[] s1] o1]. cbn [state_of fst snd] in Hagain.
    rewrite Hagain. cbn. now rewrite app_nil_r. }
  rewrite Htwice. split; [exact Hagain | split; [reflexivity | split]].
  - intros p Hp. rewrite Hstop, Hp. repeat split; reflexivity.
  - intros Hn. rewrite Hstop, Hn. reflexivity.
Qed.

(** C9.  [stream] and [streamStereo], in any state and with any arguments:
    the last two calls they make are putting the new pipeline into the
    playing state and [onChildStreaming] with the process identifier; that
    is the only [onChildStreaming] call, and no [onChildError] call is made.
    The outcome of the state change is not looked at.  [onChildError] comes
    from a later bus message, after the calls of [stream]. *)
Theorem streaming_reported_at_once
    (device leftDevice rightDevice address : string) (port : Z)
    (profile : string) (vaapi : bool) (detail : QString) (s : State) :
  let mono := stream device address port profile vaapi s in
  let stereo := streamStereo leftDevice rightDevice address port profile vaapi s in
  let later :=
    run [CallStream device address port profile vaapi;
         BusMessage (MessageError detail)] s in
  (exists before,
     output_of mono
     = before ++ [SetState (created s) StatePlaying;
                  ParentCall "onChildStreaming" [ArgInt64 (pid s)]]) /\
  count (is_parent_call "onChildStreaming") (output_of mono) = 1%nat /\
  count (is_parent_call "onChildError") (output_of mono) = 0%nat /\
  (exists before,
     output_of stereo
     = before ++ [SetState (created s) StatePlaying;
                  ParentCall "onChildStreaming" [ArgInt64 (pid s)]]) /\
  count (is_parent_call "onChildStreaming") (output_of stereo) = 1%nat /\
  count (is_parent_call "onChildError") (output_of stereo) = 0%nat /\
  output_of later
  = output_of mono
    ++ ParentCall "onChildError" [ArgInt64 (pid s); ArgByteArray (toLatin1 detail)]
    :: teardown (pid s) (created s) true.
Proof.
  intros mono stereo later. subst mono stereo later.
  assert (Hlater :
    run [CallStream device address port profile vaapi;
         BusMessage (MessageError detail)] s
    = (tt, set_pipeline None (state_of (stream device address port profile vaapi s)),
       output_of (stream device address port profile vaapi s)
       ++ ParentCall "onChildError"
            [ArgInt64 (pid s); ArgByteArray (toLatin1 detail)]
          :: teardown (pid s) (created s) true)).
  { cbn [VideoStreamer.run handle]. unfold bind at 1. rewrite stream_eq.
    cbn [state_of output_of fst snd].
    set (s1 := set_pipeline (Some (created s)) (set_created (S (created s)) s)).
    unfold bind at 1. unfold bind at 1. unfold gets at 1.
    change (_pipeline s1) with (Some (created s)). cbv iota.
    rewrite (onBusMessage_held s1 (created s)) by (reflexivity || discriminate).
    cbn [ret app reported]. rewrite app_nil_r. reflexivity. }
  rewrite Hlater, stream_eq, streamStereo_eq.
  cbn [output_of state_of fst snd].
  set (pre := match _pipeline s with
              | Some old => teardown (pid s) old false
              | None => []
              end).
  assert (Hs : count (is_parent_call "onChildStreaming") pre = 0%nat)
    by (subst pre; destruct (_pipeline s); reflexivity).
  assert (He : count (is_parent_call "onChildError") pre = 0%nat)
    by (subst pre; destruct (_pipeline s); reflexivity).
  rewrite !count_app, Hs, He.
  repeat split; try reflexivity.
  - eexists (pre ++ [_; _; _; _; _]). rewrite <- app_assoc. reflexivity.
  - eexists (pre ++ [_; _; _; _; _]). rewrite <- app_assoc. reflexivity.
Qed.

End Pipeline.

(* ------------------------------------------------------------------------- *)
(** * The properties at work                                                 *)
(* ------------------------------------------------------------------------- *)

(** The request is made at time 1000, the rover answers 2000 ms later and
    another 4000 ms pass, so the watchdog has run. *)
Lemma start_acknowledged_in_time_witness :
  let K := ordinalConstants in
  let s := atRest true 1000 in
  let final :=
    MainController.run K
      [ MainController.RecordButtonClicked; MainController.Elapse 2000;
        MainController.MessageReceived (startMessage K 1000);
        MainController.Elapse 4000 ] s in
  isRecording (MainController._dataRecorder s) = false /\
  MainController.timers s = [] /\
  0 <= 2000 < 5000 /\
  0 <= 4000 /\
  fst (startLog (MainController.clock s) (MainController._dataRecorder s)) = true /\
  shown_sequence controlWindow (output_of final)
    = [RecordingState_Waiting; RecordingState_Recording] /\
  count (is_message (stopMessage K)) (output_of final) = 0%nat /\
  count is_error_notification (output_of final) = 0%nat.
Proof.
  intros K s final.
  pose proof (start_acknowledged_in_time K s (write_qint64 1000) 2000 4000
                eq_refl eq_refl ltac:(lia) ltac:(lia) eq_refl) as H.
  cbv zeta in H.
  repeat split; try apply H; try reflexivity; lia.
Defined.

(** C1, as stated, fails.  A first request, made at time 0, is still
    unanswered at 4000 when the operator clicks again; the rover answers that
    second request at 6000, well before its watchdog (due at 9000), and the
    recorder starts.  The watchdog of the first request has run at 5000
    meanwhile: the control window has been taken from Waiting to Idle and
    only then to Recording, a stop message has been sent and an error
    notification raised.  The main window is left showing Idle. *)
Lemma acknowledged_with_older_watchdog_pending :
  let K := ordinalConstants in
  let waiting :=
    state_of (MainController.run K
                [MainController.RecordButtonClicked; MainController.Elapse 4000]
                (atRest true 0)) in
  let final :=
    MainController.run K
      [ MainController.RecordButtonClicked; MainController.Elapse 2000;
        MainController.MessageReceived (startMessage K 4000);
        MainController.Elapse 3000 ] waiting in
  isRecording (MainController._dataRecorder waiting) = false /\
  MainController.clock waiting = 4000 /\
  MainController.timers waiting = [5000] /\
  fst (startLog (MainController.clock waiting)
         (MainController._dataRecorder waiting)) = true /\
  shown_sequence controlWindow (output_of final)
    = [RecordingState_Waiting; RecordingState_Idle; RecordingState_Recording] /\
  count (is_message (stopMessage K)) (output_of final) = 1%nat /\
  count is_error_notification (output_of final) = 1%nat /\
  isRecording (MainController._dataRecorder (state_of final)) = true /\
  MainController.shown mainWindow (state_of final) = RecordingState_Idle.
Proof. vm_compute. repeat split; reflexivity. Qed.

(** The request is made at time 1000 and 5000 ms pass in silence. *)
Lemma start_not_acknowledged_witness :
  let K := ordinalConstants in
  let s := atRest true 1000 in
  let final :=
    MainController.run K
      [MainController.RecordButtonClicked; MainController.Elapse 5000] s in
  isRecording (MainController._dataRecorder s) = false /\
  MainController.timers s = [] /\
  5000 <= 5000 /\
  (forall w, MainController.shown w (state_of final) = RecordingState_Idle) /\
  count (is_message (stopMessage K)) (output_of final) = 1%nat /\
  count is_error_notification (output_of final) = 1%nat.
Proof.
  intros K s final.
  pose proof (start_not_acknowledged K s 5000 eq_refl eq_refl ltac:(lia)) as H.
  cbv zeta in H.
  repeat split; try apply H; try reflexivity; lia.
Defined.

(** C2, as stated, fails.  A first request, made at time 0, is unanswered
    at 1000 when the operator clicks again; nothing arrives for another
    5000 ms.  The watchdogs of both requests have run by then: two stop
    messages have been sent and two error notifications raised. *)
Lemma second_request_times_out_twice :
  let K := ordinalConstants in
  let waiting :=
    state_of (MainController.run K
                [MainController.RecordButtonClicked; MainController.Elapse 1000]
                (atRest true 0)) in
  let final :=
    MainController.run K
      [MainController.RecordButtonClicked; MainController.Elapse 5000] waiting in
  isRecording (MainController._dataRecorder waiting) = false /\
  MainController.timers waiting = [5000] /\
  sent (output_of final) = [startMessage K 1000; stopMessage K; stopMessage K] /\
  count (is_message (stopMessage K)) (output_of final) = 2%nat /\
  count is_error_notification (output_of final) = 2%nat /\
  (forall w, MainController.shown w (state_of final) = RecordingState_Idle).
Proof. vm_compute. repeat split; try reflexivity. intros []; reflexivity. Qed.

(** A recorder whose file can be opened is recording after the rover's
    message, with the watchdog armed at 1000 still pending; when that
    watchdog runs 5000 ms later it is silent. *)
Lemma watchdog_silent_while_recording_witness :
  let K := ordinalConstants in
  let s :=
    state_of (MainController.run K [MainController.RecordButtonClicked]
                (atRest true 1000)) in
  let s1 :=
    state_of (MainController.onMainChannelMessageReceived K
                (startMessage K 1000) s) in
  fst (startLog (MainController._recordStartTime s)
         (MainController._dataRecorder s)) = true /\
  MainController.timers s1 = [6000] /\
  output_of (MainController.elapse K 5000 s1) = [] /\
  MainController.timers (state_of (MainController.elapse K 5000 s1)) = [].
Proof.
  intros K s s1.
  pose proof (watchdog_silent_while_recording K s (write_qint64 1000) eq_refl) as H.
  cbv zeta in H. destruct H as (Hrec & Ht & Hquiet).
  destruct (Hquiet s1 5000 Hrec) as (Hout & _ & _ & Hts).
  split; [reflexivity | split; [reflexivity | split]];
    [exact Hout | rewrite Hts; reflexivity].
Defined.

(** C3, as stated, fails.  The operator starts recording at time 0, the
    rover answers at 1000 and the recorder starts, and the operator stops
    recording at 2000.  The watchdog armed at time 0 is still pending; when
    it runs at 5000 it sets every window to Idle again, sends a second stop
    message and raises an error notification. *)
Lemma watchdog_runs_after_operator_stop :
  let K := ordinalConstants in
  let before :=
    MainController.run K
      [ MainController.RecordButtonClicked; MainController.Elapse 1000;
        MainController.MessageReceived (startMessage K 0);
        MainController.Elapse 1000; MainController.RecordButtonClicked ]
      (atRest true 0) in
  let after := MainController.elapse K 3000 (state_of before) in
  shown_sequence controlWindow (output_of before)
    = [RecordingState_Waiting; RecordingState_Recording; RecordingState_Idle] /\
  sent (output_of before) = [startMessage K 0; stopMessage K] /\
  MainController.timers (state_of before) = [5000] /\
  output_of after
    = shownAll RecordingState_Idle
      ++ [SendMessage (stopMessage K); timeoutNotification] /\
  count (is_message (stopMessage K)) (output_of after) = 1%nat /\
  count is_error_notification (output_of after) = 1%nat.
Proof. vm_compute. repeat split; reflexivity. Qed.

(** The log file cannot be opened when the rover's message arrives. *)
Lemma start_refused_shows_recording_witness :
  let K := ordinalConstants in
  let s :=
    state_of (MainController.run K [MainController.RecordButtonClicked]
                (atRest false 1000)) in
  let final :=
    MainController.onMainChannelMessageReceived K (startMessage K 1000) s in
  fst (startLog (MainController._recordStartTime s)
         (MainController._dataRecorder s)) = false /\
  MainController.shown controlWindow (state_of final) = RecordingState_Recording /\
  isRecording (MainController._dataRecorder (state_of final)) = false /\
  count (is_message (stopMessage K)) (output_of final) = 2%nat /\
  count is_error_notification (output_of final) = 1%nat.
Proof.
  intros K s final.
  pose proof (start_refused_shows_recording K s (write_qint64 1000) eq_refl) as H.
  cbv zeta in H.
  repeat split; try apply H; reflexivity.
Defined.

(** A second click 1500 ms after the first. *)
Lemma toggle_while_waiting_witness :
  let K := ordinalConstants in
  let s := atRest true 1000 in
  let waiting :=
    state_of (MainController.run K
                [MainController.RecordButtonClicked; MainController.Elapse 1500] s) in
  let again := MainController.toggleDataRecording K waiting in
  isRecording (MainController._dataRecorder s) = false /\
  MainController.timers s = [] /\
  0 <= 1500 < 5000 /\
  MainController._recordStartTime waiting = 1000 /\
  MainController._recordStartTime (state_of again) = 2500 /\
  sent (output_of again) = [startMessage K 2500] /\
  MainController.timers (state_of again) = [6000; 7500].
Proof.
  intros K s waiting again.
  pose proof (toggle_while_waiting K s 1500 eq_refl eq_refl ltac:(lia)) as H.
  cbv zeta in H.
  repeat split; try apply H; try reflexivity; lia.
Defined.

(** The error text is the two code units of "no". *)
Lemma bus_failure_reported_once_witness :
  let final :=
    VideoStreamer.onBusMessage (MessageError [110%N; 111%N]) streaming in
  VideoStreamer._pipeline streaming = Some 0%nat /\
  MessageError [110%N; 111%N] <> MessageOther /\
  output_of final
  = [ ParentCall "onChildError" [ArgInt64 4242; ArgByteArray ["n"%byte; "o"%byte]];
      ParentCall "onChildLogInfo"
        [ArgInt64 4242; ArgString "VideoStreamer"; ArgString "Freeing pipeline"];
      Disconnect 0; SetState 0 StateNull; Clear 0;
      ParentCall "onChildReady" [ArgInt64 4242] ] /\
  count (is_parent_call "onChildError") (output_of final) = 1%nat /\
  count is_teardown (output_of final) = 1%nat.
Proof.
  intros final.
  assert (Hm : MessageError [110%N; 111%N] <> MessageOther) by discriminate.
  pose proof (bus_failure_reported_once deviceOnly leftDeviceOnly streaming 0
                (MessageError [110%N; 111%N]) MessageEos eq_refl Hm) as H.
  cbv zeta in H.
  repeat split; try exact Hm; try apply H.
Defined.

(** Two [stop] calls on a streamer that holds a pipeline, and one on a
    streamer that holds none. *)
Lemma stop_idempotent_witness :
  let twice :=
    VideoStreamer.run deviceOnly leftDeviceOnly
      [VideoStreamer.CallStop; VideoStreamer.CallStop] streaming in
  VideoStreamer._pipeline streaming = Some 0%nat /\
  VideoStreamer._pipeline idle = None /\
  count is_teardown (output_of twice) = 1%nat /\
  count is_clear (output_of twice) = 1%nat /\
  VideoStreamer.stop idle = (tt, idle, []).
Proof.
  intros twice.
  pose proof (stop_idempotent deviceOnly leftDeviceOnly streaming) as H.
  pose proof (stop_idempotent deviceOnly leftDeviceOnly idle) as H'.
  cbv zeta in H, H'.
  destruct H as (_ & _ & Hheld & _). destruct H' as (_ & _ & _ & Hnone).
  destruct (Hheld 0%nat eq_refl) as (_ & Hdown & Hclear).
  split; [reflexivity | split; [reflexivity | split; [exact Hdown | split]]];
    [exact Hclear | exact (Hnone eq_refl)].
Defined.

(** The messages sent when audio is switched on in the settings, the record
    button is clicked and the request times out. *)
Example tag_precedes_payload_example :
  let K := ordinalConstants in
  let ui :=
    {| enableVideo := false; enableHud := true; selectedHudParallax := 0;
       selectedHudLatency := 0; enableAudio := true;
       defaultAudioFormat := {| isUseable := true; serialized := ["a"%byte] |};
       selectedLatency := 0 |} in
  sent (output_of
          (MainController.run K
             [ MainController.SettingsApplied ui;
               MainController.RecordButtonClicked;
               MainController.Elapse 5000 ] (atRest true 258)))
  = [ [x00; x00; x00; x08];
      [x00; x00; x00; x09; "a"%byte];
      [x00; x00; x00; x06; x00; x00; x00; x00; x00; x00; x01; x02];
      [x00; x00; x00; x07] ].
Proof. vm_compute. reflexivity. Qed.

(** In the acknowledged handshake the main window is not told about the
    recording: it is left showing Waiting. *)
Example main_window_left_waiting :
  let K := ordinalConstants in
  let final :=
    MainController.run K
      [ MainController.RecordButtonClicked; MainController.Elapse 2000;
        MainController.MessageReceived (startMessage K 1000);
        MainController.Elapse 4000 ] (atRest true 1000) in
  shown_sequence mainWindow (output_of final) = [RecordingState_Waiting] /\
  MainController.shown mainWindow (state_of final) = RecordingState_Waiting.
Proof. vm_compute. split; reflexivity. Qed.

(** A code unit outside Latin-1 is reported as a question mark. *)
Example toLatin1_example :
  toLatin1 [110%N; 8364%N; 111%N] = ["n"%byte; "?"%byte; "o"%byte].
Proof. reflexivity. Qed.

(* ------------------------------------------------------------------------- *)
(** * Properties of the dispatcher                                           *)
(* ------------------------------------------------------------------------- *)

Section Dispatch.

Import MainController.

Context (K : Constants).
Context {R : Type} {Rec : CsvRecorder R}.

Local Abbreviation State := (@MainController.State R).

(** The tags of two different [case] labels differ. *)
Lemma case_labels_differ (a b : SharedMessageType) :
  In a case_labels -> In b case_labels -> a <> b ->
  (tagCode K a =? tagCode K b) = false.
Proof.
  intros Ha Hb Hne. apply Z.eqb_neq. intros Heq. apply Hne.
  now apply (NoDup_map_injective (tagCode K) case_labels (tagCode_case_labels K)).
Qed.

Ltac distinct_labels :=
  rewrite ?case_labels_differ by ((cbn; tauto) || discriminate).

Lemma read_tag (t : SharedMessageType) (rest : list byte) :
  read_qint32 (write_qint32 (tagCode K t) ++ rest) = (tagCode K t, rest).
Proof. apply read_write_qint32, tagCode_qint32. Qed.

Lemma read_bool_cons (b : byte) (rest : list byte) :
  read_bool (b :: rest) = (negb (Byte.eqb b x00), rest).
Proof.
  unfold read_bool, read_block. cbn [length Nat.leb firstn skipn be_value].
  f_equal. destruct b; reflexivity.
Qed.

(** X1.  A message whose tag, as the dispatcher reads it, is not the
    start-recording tag leaves the controller as it is, sends nothing and
    tells no window a recording state. *)
Theorem other_messages_leave_handshake (message : list byte) (s : State) :
  fst (read_qint32 message) <> tagCode K SharedMessage_StartDataRecording ->
  let final := onMainChannelMessageReceived K message s in
  state_of final = s /\
  sent (output_of final) = [] /\
  (forall w, shown_sequence w (output_of final) = []).
Proof.
  intros Hne final. subst final. unfold onMainChannelMessageReceived.
  destruct (read_qint32 message) as [messageType stream]. cbn [fst] in Hne.
  repeat match goal with
         | |- context [if ?x =? ?y then _ else _] =>
             destruct (Z.eqb_spec x y)
         end; try (exfalso; apply Hne; assumption).
  - destruct (read_bool stream) as [[] ?]; repeat split; intros []; reflexivity.
  - destruct (read_qint32 stream) as [mediaId ?]. unfold bind, gets.
    destruct (mediaId =? audioMediaId s); repeat split; intros []; reflexivity.
  - repeat split; intros []; reflexivity.
  - repeat split; intros []; reflexivity.
  - repeat split; intros []; reflexivity.
  - destruct (read_QByteArray stream). repeat split; intros []; reflexivity.
  - repeat split; intros []; reflexivity.
Qed.

(** X2.  What follows the tag in a start-recording message is never read:
    two such messages with different contents are handled alike, and the
    time handed to [startLog] is the controller's own [_recordStartTime]. *)
Theorem start_message_payload_ignored (p1 p2 : list byte) (s : State) :
  let tag := write_qint32 (tagCode K SharedMessage_StartDataRecording) in
  onMainChannelMessageReceived K (tag ++ p1) s
  = onMainChannelMessageReceived K (tag ++ p2) s /\
  _dataRecorder (state_of (onMainChannelMessageReceived K (tag ++ p1) s))
  = (if fst (startLog (_recordStartTime s) (_dataRecorder s))
     then snd (startLog (_recordStartTime s) (_dataRecorder s))
     else stopLog (snd (startLog (_recordStartTime s) (_dataRecorder s)))).
Proof.
  intros tag. subst tag.
  destruct (fst (startLog (_recordStartTime s) (_dataRecorder s))) eqn:H.
  - rewrite !(start_message_started K _ s H). split; reflexivity.
  - rewrite !(start_message_not_started K _ s H). split; reflexivity.
Qed.

(** X3.  A status update is judged by the byte after the tag: not zero, the
    mbed status is set to Normal; zero, or no byte at all, the operator is
    told that the mbed is lost.  The controller itself is left as it is. *)
Theorem status_update_dispatch (rest : list byte) (s : State) :
  onMainChannelMessageReceived K
    (write_qint32 (tagCode K SharedMessage_RoverStatusUpdate) ++ rest) s
  = (tt, s,
     match rest with
     | b :: _ => if Byte.eqb b x00 then mbedLost else [SetMbedStatus "Normal"]
     | [] => mbedLost
     end).
Proof.
  unfold onMainChannelMessageReceived. rewrite read_tag, Z.eqb_refl.
  destruct rest as [|b rest]; [reflexivity|].
  rewrite read_bool_cons. destruct (Byte.eqb b x00); reflexivity.
Qed.

(** X4.  A media-server error raises exactly one warning and nothing else:
    the audio warning when the media identifier after the tag is the audio
    client's, the video warning otherwise.  The error text that follows is
    not shown. *)
Theorem media_error_dispatch (mediaId : Z) (rest : list byte) (s : State) :
  - 2 ^ 31 <= mediaId < 2 ^ 31 ->
  onMainChannelMessageReceived K
    (write_qint32 (tagCode K SharedMessage_RoverMediaServerError)
     ++ write_qint32 mediaId ++ rest) s
  = (tt, s,
     [if mediaId =? audioMediaId s then audioStreamWarning
      else videoStreamWarning]).
Proof.
  intros Hid. unfold onMainChannelMessageReceived. rewrite read_tag.
  distinct_labels. rewrite Z.eqb_refl.
  rewrite read_write_qint32 by exact Hid. unfold bind, gets. cbn.
  destruct (mediaId =? audioMediaId s); reflexivity.
Qed.

Lemma read_quint32_length (n : Z) (rest : list byte) :
  0 <= n < 4294967296 ->
  read_quint32 (be_bytes 4 n ++ rest) = (n, rest).
Proof.
  intros Hn. unfold read_quint32.
  rewrite read_block_app by apply be_bytes_length.
  rewrite be_value_be_bytes. change (256 ^ Z.of_nat 4) with 4294967296.
  rewrite Z.mod_small by lia. reflexivity.
Qed.

Lemma read_block_short (n : nat) (l : list byte) :
  (length l < n)%nat -> read_block n l = (None, []).
Proof.
  intros H. unfold read_block.
  replace (n <=? length l)%nat with false
    by (symmetry; apply Nat.leb_gt; exact H).
  reflexivity.
Qed.

(** X5.  A sensor update carrying a byte array (its length as a 32-bit
    number, then the bytes) hands exactly those bytes to the sensor parser,
    whatever follows them, and leaves the controller as it is. *)
Theorem sensor_update_delivers_data (data rest : list byte) (s : State) :
  Z.of_nat (length data) < 4294967295 ->
  onMainChannelMessageReceived K
    (write_qint32 (tagCode K SharedMessage_SensorUpdate)
     ++ be_bytes 4 (Z.of_nat (length data)) ++ data ++ rest) s
  = (tt, s, [NewData data]).
Proof.
  intros Hlen. unfold onMainChannelMessageReceived. rewrite read_tag.
  distinct_labels. rewrite Z.eqb_refl.
  unfold read_QByteArray. rewrite read_quint32_length by lia.
  replace (Z.of_nat (length data) =? 4294967295) with false
    by (symmetry; apply Z.eqb_neq; lia).
  rewrite Nat2Z.id, read_block_app by reflexivity. reflexivity.
Qed.

(** X6.  A sensor update that announces more bytes than the message holds,
    or announces the null array, hands the parser an empty block: never a
    part of the data. *)
Theorem sensor_update_truncated (len : Z) (data : list byte) (s : State) :
  Z.of_nat (length data) < len < 4294967296 ->
  onMainChannelMessageReceived K
    (write_qint32 (tagCode K SharedMessage_SensorUpdate)
     ++ be_bytes 4 len ++ data) s
  = (tt, s, [NewData []]).
Proof.
  intros Hlen. unfold onMainChannelMessageReceived. rewrite read_tag.
  distinct_labels. rewrite Z.eqb_refl.
  unfold read_QByteArray. rewrite read_quint32_length by lia.
  destruct (Z.eqb_spec len 4294967295) as [E|E]; [reflexivity|].
  rewrite read_block_short by lia. reflexivity.
Qed.

Lemma read_qint32_short (message : list byte) :
  (length message < 4)%nat -> read_qint32 message = (0, []).
Proof.
  intros H. unfold read_qint32. now rewrite read_block_short.
Qed.

(** X7.  A message of fewer than four bytes, the empty one included, is
    handled as a message with tag zero and no fields.  Where no [case]
    label is zero nothing happens; where the status-update tag is zero the
    operator is told that the mbed is lost. *)
Theorem short_message_is_tag_zero (message : list byte) (s : State) :
  (length message < 4)%nat ->
  ((forall t, In t case_labels -> tagCode K t <> 0) ->
   onMainChannelMessageReceived K message s = (tt, s, [])) /\
  (tagCode K SharedMessage_RoverStatusUpdate = 0 ->
   onMainChannelMessageReceived K message s = (tt, s, mbedLost)).
Proof.
  intros Hlen. unfold onMainChannelMessageReceived.
  rewrite read_qint32_short by exact Hlen. split.
  - intros Hz.
    repeat match goal with
           | |- context [if 0 =? tagCode K ?t then _ else _] =>
               replace (0 =? tagCode K t) with false
                 by (symmetry; apply Z.eqb_neq; intros E;
                     apply (Hz t); [cbn; tauto | now symmetry])
           end.
    reflexivity.
  - intros Hz. rewrite Hz. reflexivity.
Qed.

(** X8.  No message, whatever its contents and whatever [startLog]
    answers, arms or drops a watchdog, moves the clock, or changes the stored
    start time or the settings. *)
Theorem messages_keep_timers (message : list byte) (s : State) :
  let final := state_of (onMainChannelMessageReceived K message s) in
  timers final = timers s /\
  clock final = clock s /\
  _recordStartTime final = _recordStartTime s /\
  _settings final = _settings s /\
  audioMediaId final = audioMediaId s.
Proof.
  intros final. subst final. unfold onMainChannelMessageReceived.
  destruct (read_qint32 message) as [messageType stream].
  repeat match goal with
         | |- context [if ?x =? ?y then _ else _] => destruct (x =? y)
         end; try (repeat split; reflexivity).
  - destruct (read_bool stream) as [[] ?]; repeat split; reflexivity.
  - destruct (read_qint32 stream) as [mediaId ?]. unfold bind, gets.
    destruct (mediaId =? audioMediaId s); repeat split; reflexivity.
  - destruct (read_QByteArray stream). repeat split; reflexivity.
  - unfold bind, gets.
    destruct (startLog (_recordStartTime s) (_dataRecorder s)) as [[] r'];
      repeat split; reflexivity.
Qed.

End Dispatch.

(* ------------------------------------------------------------------------- *)
(** * Properties of the watchdog timers                                      *)
(* ------------------------------------------------------------------------- *)

Section Timers.

Import MainController.

Context (K : Constants).
Context {R : Type} {Rec : CsvRecorder R}.

Local Abbreviation State := (@MainController.State R).

Ltac results := rewrite ?state_of_result, ?output_of_result, ?app_nil_r.

(** The watchdog closure neither reads nor writes the clock and the list of
    timers. *)
Lemma watchdog_frame (c : Z) (ts : list Z) (s : State) :
  watchdog K (set_timers ts (set_clock c s))
  = (tt, set_timers ts (set_clock c (state_of (watchdog K s))),
     output_of (watchdog K s)).
Proof.
  destruct (isRecording (_dataRecorder s)) eqn:H.
  - rewrite !watchdog_recording by exact H. reflexivity.
  - rewrite !watchdog_not_recording by exact H. reflexivity.
Qed.

Lemma fire_frame (due : list Z) (c : Z) (ts : list Z) (s : State) :
  fire K due (set_timers ts (set_clock c s))
  = (tt, set_timers ts (set_clock c (state_of (fire K due s))),
     output_of (fire K due s)).
Proof.
  revert s. induction due as [|d due IH]; intros s; [reflexivity|].
  cbn [fire]. unfold bind. rewrite watchdog_frame.
  destruct (watchdog K s) as [[[] s1] o1]. results.
  rewrite IH. destruct (fire K due s1) as [[[] s2] o2]. reflexivity.
Qed.

Lemma fire_app (l1 l2 : list Z) (s : State) :
  fire K (l1 ++ l2) s
  = (tt, state_of (fire K l2 (state_of (fire K l1 s))),
     output_of (fire K l1 s) ++ output_of (fire K l2 (state_of (fire K l1 s)))).
Proof.
  revert s. induction l1 as [|d l1 IH]; intros s.
  - cbn [app fire]. unfold ret. results.
    now destruct (fire K l2 s) as [[[] s2] o2].
  - cbn [app fire]. unfold bind.
    destruct (watchdog K s) as [[[] s1] o1]. rewrite IH.
    destruct (fire K l1 s1) as [[[] s2] o2]. results.
    now rewrite app_assoc.
Qed.

Lemma fire_length (l l' : list Z) (s : State) :
  length l = length l' -> fire K l s = fire K l' s.
Proof.
  revert l' s. induction l as [|d l IH]; intros [|d' l'] s H;
    try discriminate H; [reflexivity|].
  cbn [fire]. unfold bind. destruct (watchdog K s) as [[[] s1] o1].
  rewrite (IH l') by (now injection H). reflexivity.
Qed.

Lemma fire_keeps_clock_timers (due : list Z) (s : State) :
  clock (state_of (fire K due s)) = clock s /\
  timers (state_of (fire K due s)) = timers s.
Proof.
  revert s. induction due as [|d due IH]; intros s; [split; reflexivity|].
  cbn [fire]. unfold bind.
  destruct (isRecording (_dataRecorder s)) eqn:H.
  - rewrite watchdog_recording by exact H.
    destruct (IH s) as [Hc Ht]. destruct (fire K due s) as [[[] s2] o2].
    exact (conj Hc Ht).
  - rewrite watchdog_not_recording by exact H.
    destruct (IH (stopped s)) as [Hc Ht].
    destruct (fire K due (stopped s)) as [[[] s2] o2].
    exact (conj Hc Ht).
Qed.

Lemma due_in_two_steps (c a b : Z) (ts : list Z) :
  0 <= b ->
  length (filter (fun d => d <=? c + (a + b)) ts)
  = length (filter (fun d => d <=? c + a) ts
            ++ filter (fun d => d <=? c + a + b)
                 (filter (fun d => negb (d <=? c + a)) ts)).
Proof.
  intros Hb. induction ts as [|d ts IH]; [reflexivity|].
  cbn [filter].
  destruct (Z.leb_spec d (c + a)) as [H1|H1]; cbn [negb].
  - replace (d <=? c + (a + b)) with true by (symmetry; apply Z.leb_le; lia).
    cbn [app length]. now rewrite IH.
  - cbn [filter].
    replace (d <=? c + a + b) with (d <=? c + (a + b)) by (f_equal; lia).
    destruct (d <=? c + (a + b)); [|exact IH].
    rewrite length_app in *. cbn [length]. rewrite IH. lia.
Qed.

Lemma pending_in_two_steps (c a b : Z) (ts : list Z) :
  0 <= b ->
  filter (fun d => negb (d <=? c + a + b))
    (filter (fun d => negb (d <=? c + a)) ts)
  = filter (fun d => negb (d <=? c + (a + b))) ts.
Proof.
  intros Hb. induction ts as [|d ts IH]; [reflexivity|].
  cbn [filter].
  destruct (Z.leb_spec d (c + a)) as [H1|H1]; cbn [negb].
  - replace (d <=? c + (a + b)) with true by (symmetry; apply Z.leb_le; lia).
    cbn [negb]. exact IH.
  - cbn [filter].
    replace (d <=? c + a + b) with (d <=? c + (a + b)) by (f_equal; lia).
    destruct (d <=? c + (a + b)); cbn [negb]; now rewrite IH.
Qed.

(** X9.  Time that passes in two stretches has the effect of the same time
    passing in one: the same watchdogs run, the same calls are made in the
    same order, and the same state is left. *)
Theorem elapse_in_two_steps (a b : Z) (s : State) :
  0 <= b ->
  run K [Elapse a; Elapse b] s = run K [Elapse (a + b)] s.
Proof.
  intros Hb. rewrite !run_cons, !run_nil. cbn [handle]. results.
  rewrite !elapse_eq.
  set (c := clock s). set (ts := timers s).
  rewrite (fire_frame _ (c + a)). results.
  set (l1 := filter (fun d => d <=? c + a) ts).
  set (s1 := state_of (fire K l1 s)).
  cbn [clock timers set_timers set_clock].
  rewrite (fire_frame _ (c + a + b)). results.
  rewrite pending_in_two_steps by exact Hb.
  rewrite (fire_frame _ (c + (a + b))). results.
  rewrite (fire_length (filter (fun d => d <=? c + (a + b)) ts)
             (l1 ++ filter (fun d => d <=? c + a + b)
                      (filter (fun d => negb (d <=? c + a)) ts)))
    by (now apply due_in_two_steps).
  rewrite fire_app. results. fold s1.
  set (l2 := filter (fun d => d <=? c + a + b)
               (filter (fun d => negb (d <=? c + a)) ts)).
  rewrite (fire_frame l2 (c + a)). results.
  rewrite (Z.add_assoc c a b). reflexivity.
Qed.

Lemma count_cons {E : Type} (p : E -> bool) (e : E) (out : list E) :
  count p (e :: out) = ((if p e then 1 else 0) + count p out)%nat.
Proof. unfold count. cbn [filter]. now destruct (p e). Qed.

Lemma start_is_not_stop (t : Z) :
  bytes_eqb (startMessage K t) (stopMessage K) = false.
Proof.
  apply bytes_eqb_length. unfold stopMessage, startMessage, write_qint32, write_qint64.
  rewrite length_app, !be_bytes_length. lia.
Qed.

(** What a number of clicks on the record button do while the recorder is
    not recording and no time passes. *)
Lemma clicks_while_idle (n : nat) (s : State) :
  isRecording (_dataRecorder s) = false ->
  let r := run K (repeat RecordButtonClicked n) s in
  isRecording (_dataRecorder (state_of r)) = false /\
  clock (state_of r) = clock s /\
  timers (state_of r) = timers s ++ repeat (clock s + 5000) n /\
  count (is_message (startMessage K (clock s))) (output_of r) = n /\
  count (is_message (stopMessage K)) (output_of r) = 0%nat /\
  count is_error_notification (output_of r) = 0%nat.
Proof.
  revert s. induction n as [|n IH]; intros s Hrec r; subst r.
  - cbn [repeat]. rewrite run_nil, app_nil_r. results.
    repeat split; try reflexivity. exact Hrec.
  - cbn [repeat]. rewrite run_cons. cbn [handle].
    rewrite toggle_not_recording, startDataRecording_eq by exact Hrec. results.
    destruct (IH (requested s) Hrec) as (H1 & H2 & H3 & H4 & H5 & H6).
    change (clock (requested s)) with (clock s) in *.
    change (timers (requested s)) with (timers s ++ [clock s + 5000]) in H3.
    rewrite !count_app, H4, H5, H6, H3, <- app_assoc.
    unfold count. cbn [shownAll filter is_message is_error_notification app length].
    rewrite bytes_eqb_refl, stop_is_not_start.
    repeat split; try assumption; reflexivity.
Qed.

(** What the watchdogs that are due do while the recorder is not
    recording. *)
Lemma fire_not_recording (due : list Z) (s : State) :
  isRecording (_dataRecorder s) = false ->
  forall t,
  count (is_message (stopMessage K)) (output_of (fire K due s)) = length due /\
  count is_error_notification (output_of (fire K due s)) = length due /\
  count (is_message (startMessage K t)) (output_of (fire K due s)) = 0%nat /\
  isRecording (_dataRecorder (state_of (fire K due s))) = false.
Proof.
  revert s. induction due as [|d due IH]; intros s Hrec t.
  - repeat split; try reflexivity. exact Hrec.
  - cbn [fire]. unfold bind. rewrite watchdog_not_recording by exact Hrec.
    assert (Hst : isRecording (_dataRecorder (stopped s)) = false)
      by apply stopLog_not_recording.
    destruct (IH (stopped s) Hst t) as (H1 & H2 & H3 & H4).
    destruct (fire K due (stopped s)) as [[[] s2] o2].
    unfold output_of, state_of in *. cbn [fst snd] in *.
    rewrite !count_app, H1, H2, H3.
    unfold count. cbn [shownAll filter is_message is_error_notification app length
                       timeoutNotification].
    rewrite bytes_eqb_refl, start_is_not_stop.
    repeat split; try assumption; reflexivity.
Qed.

Lemma filter_repeat_all (f : Z -> bool) (d : Z) (n : nat) :
  f d = true -> filter f (repeat d n) = repeat d n.
Proof.
  intros H. induction n as [|n IH]; [reflexivity|].
  cbn [repeat filter]. now rewrite H, IH.
Qed.

Lemma filter_repeat_none (f : Z -> bool) (d : Z) (n : nat) :
  f d = false -> filter f (repeat d n) = [].
Proof.
  intros H. induction n as [|n IH]; [reflexivity|].
  cbn [repeat filter]. now rewrite H, IH.
Qed.

(** X10.  Every click on the record button while the recorder is not
    recording is a start request of its own.  After [n] clicks in a row that
    the rover does not answer, 5000 ms or more later [n] watchdogs have run:
    [n] start messages, [n] stop messages and [n] error notifications have
    been produced, and no timer is left. *)
Theorem every_click_times_out (n : nat) (d : Z) (s : State) :
  isRecording (_dataRecorder s) = false ->
  timers s = [] ->
  5000 <= d ->
  let final := run K (repeat RecordButtonClicked n ++ [Elapse d]) s in
  count (is_message (startMessage K (clock s))) (output_of final) = n /\
  count (is_message (stopMessage K)) (output_of final) = n /\
  count is_error_notification (output_of final) = n /\
  timers (state_of final) = [] /\
  isRecording (_dataRecorder (state_of final)) = false.
Proof.
  intros Hrec Ht Hd final. subst final.
  rewrite run_app. results.
  destruct (clicks_while_idle n s Hrec) as (H1 & H2 & H3 & H4 & H5 & H6).
  set (s1 := state_of (run K (repeat RecordButtonClicked n) s)) in *.
  rewrite Ht in H3. cbn [app] in H3.
  rewrite run_cons, run_nil. cbn [handle]. results.
  rewrite elapse_eq, H2, H3.
  assert (Hdue : (clock s + 5000 <=? clock s + d) = true)
    by (apply Z.leb_le; lia).
  rewrite filter_repeat_all, filter_repeat_none by (cbn; now rewrite Hdue).
  rewrite fire_frame. results.
  destruct (fire_not_recording (repeat (clock s + 5000) n) s1 H1 (clock s))
    as (F1 & F2 & F3 & F4).
  rewrite repeat_length in F1, F2.
  rewrite !count_app, H4, H5, H6, F1, F2, F3.
  repeat split; try lia; try reflexivity. exact F4.
Qed.

Lemma settings_frame (ui : SettingsModel) (s : State) :
  let final := state_of (onSettingsApplied K ui s) in
  timers final = timers s /\
  clock final = clock s /\
  _dataRecorder final = _dataRecorder s /\
  _recordStartTime final = _recordStartTime s /\
  (forall w, shown w final = shown w s).
Proof.
  intros final. subst final. unfold onSettingsApplied, startAudioStream, bind.
  destruct (enableVideo ui), (enableAudio ui);
    try destruct (isUseable (defaultAudioFormat ui));
    repeat split; try (intros []; reflexivity).
Qed.

Lemma received_frame (message : list byte) (s : State) :
  timers (state_of (onMainChannelMessageReceived K message s)) = timers s /\
  clock (state_of (onMainChannelMessageReceived K message s)) = clock s.
Proof.
  unfold onMainChannelMessageReceived.
  destruct (read_qint32 message) as [messageType stream].
  repeat match goal with
         | |- context [if ?x =? ?y then _ else _] => destruct (x =? y)
         end; try (split; reflexivity).
  - destruct (read_bool stream) as [[] ?]; split; reflexivity.
  - destruct (read_qint32 stream) as [mediaId ?]. unfold bind, gets.
    destruct (mediaId =? audioMediaId s); split; reflexivity.
  - destruct (read_QByteArray stream). split; reflexivity.
  - unfold bind, gets.
    destruct (startLog (_recordStartTime s) (_dataRecorder s)) as [[] r'];
      split; reflexivity.
Qed.

Lemma handle_keeps_window (e : Event) (s : State) :
  forward e -> timers_in_window s ->
  timers_in_window (state_of (handle K e s)).
Proof.
  intros He Hs. unfold timers_in_window in *. destruct e as [|ui|message|dt];
    cbn [handle forward] in *.
  - destruct (isRecording (_dataRecorder s)) eqn:H.
    + rewrite toggle_recording, stopDataRecording_eq by exact H. exact Hs.
    + rewrite toggle_not_recording, startDataRecording_eq by exact H. results.
      change (Forall (fun d => clock s < d <= clock s + 5000)
                (timers s ++ [clock s + 5000])).
      apply Forall_app. split; [exact Hs|]. repeat constructor; lia.
  - destruct (settings_frame ui s) as (Ht & Hc & _). cbv zeta in Ht, Hc.
    now rewrite Ht, Hc.
  - destruct (received_frame message s) as (Ht & Hc). now rewrite Ht, Hc.
  - rewrite elapse_eq, fire_frame. results.
    cbn [clock timers set_timers set_clock].
    apply Forall_forall. intros d Hd. apply filter_In in Hd.
    destruct Hd as [Hin Hlate].
    rewrite Forall_forall in Hs. specialize (Hs d Hin).
    apply negb_true_iff, Z.leb_gt in Hlate. lia.
Qed.

(** X11.  As long as the clock is not turned back, whatever the operator,
    the rover and the settings do, a pending watchdog is never overdue and
    never more than 5000 ms away: it runs at its deadline and only then. *)
Theorem timers_stay_in_window (es : list Event) (s : State) :
  Forall forward es ->
  timers_in_window s ->
  timers_in_window (state_of (run K es s)).
Proof.
  intros Hes. revert s. induction Hes as [|e es He Hes IH]; intros s Hs.
  - exact Hs.
  - rewrite run_cons. results. apply IH. now apply handle_keeps_window.
Qed.

(** X12.  Applying the settings stores them, sends the stop-all-cameras
    message exactly when video is off and, for audio, the activate message
    when it is on with a useable format, the deactivate message when it is
    off, and no audio message at all when it is on with a format that is not
    useable.  The recording handshake is not touched. *)
Theorem settings_applied_messages (ui : SettingsModel) (s : State) :
  let final := onSettingsApplied K ui s in
  sent (output_of final) = settingsMessages K ui /\
  count (fun e => match e with StopVideo => true | _ => false end)
    (output_of final) = (if enableVideo ui then 0 else 1)%nat /\
  _settings (state_of final) = ui /\
  _dataRecorder (state_of final) = _dataRecorder s /\
  timers (state_of final) = timers s /\
  _recordStartTime (state_of final) = _recordStartTime s /\
  (forall w, shown w (state_of final) = shown w s) /\
  (forall w, shown_sequence w (output_of final) = []).
Proof.
  intros final. subst final.
  unfold onSettingsApplied, startAudioStream, settingsMessages, bind.
  destruct (enableVideo ui), (enableAudio ui);
    try destruct (isUseable (defaultAudioFormat ui));
    repeat split; try (intros []; reflexivity).
Qed.

(** X13.  The operator starts recording, the rover answers and the recorder
    starts, and the operator stops again, all within 5000 ms of the request.
    When the 5000 ms are over the watchdog of the request still runs: every
    window is set to Idle once more, a second stop message is sent and the
    operator is told that the rover has not responded. *)
Theorem early_stop_still_times_out
    (s : State) (payload : list byte) (d1 d2 d3 : Z) :
  isRecording (_dataRecorder s) = false ->
  timers s = [] ->
  0 <= d1 -> 0 <= d2 -> d1 + d2 < 5000 -> 5000 <= d1 + d2 + d3 ->
  fst (startLog (clock s) (_dataRecorder s)) = true ->
  let ack := write_qint32 (tagCode K SharedMessage_StartDataRecording) ++ payload in
  let stopped_early :=
    run K [RecordButtonClicked; Elapse d1; MessageReceived ack; Elapse d2;
           RecordButtonClicked] s in
  let late := elapse K d3 (state_of stopped_early) in
  shown_sequence controlWindow (output_of stopped_early)
    = [RecordingState_Waiting; RecordingState_Recording; RecordingState_Idle] /\
  sent (output_of stopped_early) = [startMessage K (clock s); stopMessage K] /\
  timers (state_of stopped_early) = [clock s + 5000] /\
  output_of late
    = shownAll RecordingState_Idle
      ++ [SendMessage (stopMessage K); timeoutNotification] /\
  timers (state_of late) = [].
Proof.
  intros Hrec Ht Hd1 Hd2 Hlt Hge Hok ack stopped_early late.
  set (s1 := set_timers [clock s + 5000] (set_clock (clock s + d1) (requested s))).
  set (s2 := set_timers [clock s + 5000]
               (set_clock (clock s + d1 + d2) (acknowledged s1))).
  assert (Hrec2 : isRecording (_dataRecorder s2) = true)
    by (apply (startLog_recording (clock s) (_dataRecorder s)); exact Hok).
  assert (He : stopped_early =
    (tt, stopped s2,
     (SendMessage (startMessage K (clock s)) :: shownAll RecordingState_Waiting)
     ++ [ SetRecordingState controlWindow RecordingState_Recording;
          SetRecordingState commentsWindow RecordingState_Recording ]
     ++ shownAll RecordingState_Idle ++ [SendMessage (stopMessage K)])).
  { subst stopped_early.
    change [RecordButtonClicked; Elapse d1; MessageReceived ack; Elapse d2;
            RecordButtonClicked]
      with ([RecordButtonClicked; Elapse d1]
            ++ [MessageReceived ack; Elapse d2; RecordButtonClicked]).
    rewrite run_app, request_pending by (assumption || lia). results. fold s1.
    rewrite !run_cons, run_nil. cbn [handle].
    subst ack. rewrite (start_message_started K payload s1) by exact Hok. results.
    rewrite (elapse_one_pending K (clock s + 5000)) by (reflexivity || (cbn; lia)).
    results. change (set_timers _ (set_clock _ (acknowledged s1))) with s2.
    rewrite toggle_recording, stopDataRecording_eq by exact Hrec2. results.
    reflexivity. }
  subst late. rewrite He. results.
  rewrite (elapse_one_due K (clock s + 5000)) by (reflexivity || (cbn; lia)).
  rewrite watchdog_not_recording by apply stopLog_not_recording. results.
  repeat split; reflexivity.
Qed.

End Timers.

(* ------------------------------------------------------------------------- *)
(** * Properties of the streamer over its whole life                         *)
(* ------------------------------------------------------------------------- *)

Section PipelineRuns.

Import VideoStreamer.

Variable createRtpV4L2EncodeString :
  string -> string -> Z -> string -> bool -> string.
Variable createRtpStereoV4L2EncodeString :
  string -> string -> string -> Z -> string -> bool -> string.

Local Abbreviation stream := (stream createRtpV4L2EncodeString).
Local Abbreviation streamStereo := (streamStereo createRtpStereoV4L2EncodeString).
Local Abbreviation handle :=
  (handle createRtpV4L2EncodeString createRtpStereoV4L2EncodeString).
Local Abbreviation run :=
  (run createRtpV4L2EncodeString createRtpStereoV4L2EncodeString).

Lemma stopPrivate_eq (sendReady : bool) (s : State) :
  stopPrivate sendReady s = (tt, set_pipeline None s, freed s sendReady).
Proof.
  unfold freed. destruct (_pipeline s) as [p|] eqn:H.
  - now apply stopPrivate_held.
  - rewrite stopPrivate_none by exact H. destruct s as [me pl n].
    cbn in H. subst pl. reflexivity.
Qed.

Lemma handle_eq (e : Event) (s : State) :
  handle e s
  = match e with
    | CallStop => (tt, set_pipeline None s, freed s true)
    | CallStream d a po pr v =>
        (tt, set_pipeline (Some (created s)) (set_created (S (created s)) s),
         freed s false
         ++ startup (pid s) (created s) (createRtpV4L2EncodeString d a po pr v))
    | CallStreamStereo l r a po pr v =>
        (tt, set_pipeline (Some (created s)) (set_created (S (created s)) s),
         freed s false
         ++ startup (pid s) (created s)
              (createRtpStereoV4L2EncodeString l r a po pr v))
    | BusMessage m =>
        match _pipeline s, m with
        | Some p, MessageEos | Some p, MessageError _ =>
            (tt, set_pipeline None s,
             ParentCall "onChildError" (ArgInt64 (pid s) :: reported m)
             :: teardown (pid s) p true)
        | _, _ => (tt, s, [])
        end
    end.
Proof.
  destruct e as [|d a po pr v|l r a po pr v|m]; cbn [VideoStreamer.handle].
  - apply stopPrivate_eq.
  - apply stream_eq.
  - apply streamStereo_eq.
  - unfold bind at 1, gets at 1.
    destruct (_pipeline s) as [p|] eqn:H; [|reflexivity].
    destruct m as [|detail|]; [ | | reflexivity];
      rewrite (onBusMessage_held s p) by (assumption || discriminate);
      reflexivity.
Qed.

Lemma run_step (e : Event) (es : list Event) (s : State) :
  run (e :: es) s
  = (tt, state_of (run es (state_of (handle e s))),
     output_of (handle e s) ++ output_of (run es (state_of (handle e s)))).
Proof.
  cbn [VideoStreamer.run]. unfold bind, state_of, output_of.
  destruct (handle e s) as [[[] s1] o1]. cbn.
  destruct (run es s1) as [[[] s2] o2]. reflexivity.
Qed.

Lemma freed_counts (s : State) (sendReady : bool) :
  count is_create (freed s sendReady) = 0%nat /\
  count is_playing (freed s sendReady) = 0%nat /\
  count (is_parent_call "onChildStreaming") (freed s sendReady) = 0%nat /\
  count is_clear (freed s sendReady) = held s /\
  count is_teardown (freed s sendReady) = held s.
Proof.
  unfold freed, held. destruct (_pipeline s); [destruct sendReady|];
    repeat split; reflexivity.
Qed.

Lemma handle_balance (e : Event) (s : State) :
  let out := output_of (handle e s) in
  (count is_create out + held s
   = count is_clear out + held (state_of (handle e s)))%nat /\
  count is_teardown out = count is_clear out /\
  count is_playing out = count is_create out /\
  count (is_parent_call "onChildStreaming") out = count is_create out.
Proof.
  intros out. subst out. rewrite handle_eq.
  destruct (freed_counts s true) as (T1 & T2 & T3 & T4 & T5).
  destruct (freed_counts s false) as (F1 & F2 & F3 & F4 & F5).
  destruct e as [|d a po pr v|l r a po pr v|m];
    unfold state_of, output_of; cbn [fst snd].
  - rewrite T1, T2, T3, T4, T5. repeat split; try reflexivity. cbn. lia.
  - rewrite !count_app, F1, F2, F3, F4, F5. repeat split; try reflexivity.
    unfold held. cbn. lia.
  - rewrite !count_app, F1, F2, F3, F4, F5. repeat split; try reflexivity.
    unfold held. cbn. lia.
  - unfold held. destruct (_pipeline s) as [p|] eqn:H;
      [destruct m as [|detail|]|]; cbn [fst snd]; rewrite ?H;
      repeat split; reflexivity.
Qed.

(** X14.  Over any sequence of calls and bus messages, pipelines are
    accounted for: the pipelines created, plus the one held at the start if
    any, are the pipelines cleared plus the one held at the end if any.  Every
    pipeline cleared was put into the null state, and every pipeline created
    was put into the playing state and reported with [onChildStreaming]. *)
Theorem pipelines_accounted_for (es : list Event) (s : State) :
  let out := output_of (run es s) in
  (count is_create out + held s
   = count is_clear out + held (state_of (run es s)))%nat /\
  count is_teardown out = count is_clear out /\
  count is_playing out = count is_create out /\
  count (is_parent_call "onChildStreaming") out = count is_create out.
Proof.
  revert s. induction es as [|e es IH]; intros s out; subst out.
  - repeat split; reflexivity.
  - rewrite run_step.
    destruct (handle_balance e s) as (H1 & H2 & H3 & H4).
    destruct (IH (state_of (handle e s))) as (I1 & I2 & I3 & I4).
    unfold state_of, output_of in *. cbn [fst snd] in *.
    rewrite !count_app. repeat split; lia.
Qed.

Lemma freed_names_process (s : State) (sendReady : bool) :
  Forall (names_process (pid s)) (freed s sendReady).
Proof.
  unfold freed. destruct (_pipeline s); [destruct sendReady|];
    repeat constructor.
Qed.

Lemma handle_names_process (e : Event) (s : State) :
  Forall (names_process (pid s)) (output_of (handle e s)) /\
  pid (state_of (handle e s)) = pid s.
Proof.
  rewrite handle_eq.
  destruct e as [|d a po pr v|l r a po pr v|m];
    unfold state_of, output_of; cbn [fst snd].
  - split; [apply freed_names_process | reflexivity].
  - split; [|reflexivity]. apply Forall_app. split;
      [apply freed_names_process | repeat constructor].
  - split; [|reflexivity]. apply Forall_app. split;
      [apply freed_names_process | repeat constructor].
  - destruct (_pipeline s) as [p|]; [destruct m as [|detail|]|];
      split; try reflexivity; repeat constructor.
Qed.

(** X16.  The process identifier of the streamer never changes, and every
    call the streamer makes to its parent, whatever the events, names that
    process first. *)
Theorem parent_calls_name_process (es : list Event) (s : State) :
  Forall (names_process (pid s)) (output_of (run es s)) /\
  pid (state_of (run es s)) = pid s.
Proof.
  revert s. induction es as [|e es IH]; intros s.
  - split; [constructor | reflexivity].
  - rewrite run_step.
    destruct (handle_names_process e s) as (H1 & H2).
    destruct (IH (state_of (handle e s))) as (I1 & I2).
    unfold state_of, output_of in *. cbn [fst snd] in *.
    rewrite H2 in I1, I2. split; [|exact I2].
    apply Forall_app. split; assumption.
Qed.

(** X17.  [stream] and [streamStereo] on a streamer that holds a pipeline
    free that pipeline first, before the new one is created, and do not tell
    the parent that the streamer is ready in between; the new pipeline gets
    a handle different from the old. *)
Theorem restart_frees_first
    (device leftDevice rightDevice address : string) (port : Z)
    (profile : string) (vaapi : bool) (old : nat) (s : State) :
  _pipeline s = Some old ->
  handle_known s ->
  let mono := stream device address port profile vaapi s in
  let stereo := streamStereo leftDevice rightDevice address port profile vaapi s in
  output_of mono
  = teardown (pid s) old false
    ++ startup (pid s) (created s)
         (createRtpV4L2EncodeString device address port profile vaapi) /\
  output_of stereo
  = teardown (pid s) old false
    ++ startup (pid s) (created s)
         (createRtpStereoV4L2EncodeString leftDevice rightDevice address port
            profile vaapi) /\
  old <> created s /\
  _pipeline (state_of mono) = Some (created s) /\
  _pipeline (state_of stereo) = Some (created s) /\
  count (is_parent_call "onChildReady") (output_of mono) = 0%nat /\
  count (is_parent_call "onChildReady") (output_of stereo) = 0%nat /\
  count is_teardown (output_of mono) = 1%nat /\
  count is_teardown (output_of stereo) = 1%nat.
Proof.
  intros Hp Hk mono stereo. subst mono stereo.
  rewrite stream_eq, streamStereo_eq, Hp.
  specialize (Hk old Hp).
  repeat split; try reflexivity. lia.
Qed.

(** X18.  The destructor frees the held pipeline as [stop] does, leaving the
    same state, but never tells the parent that the streamer is ready:
    [stop] makes the calls of the destructor and then, if a pipeline was
    held, the [onChildReady] call. *)
Theorem destructor_is_silent_stop (s : State) :
  state_of (destructor s) = state_of (stop s) /\
  _pipeline (state_of (destructor s)) = None /\
  output_of (stop s)
  = output_of (destructor s)
    ++ match _pipeline s with
       | Some _ => [ParentCall "onChildReady" [ArgInt64 (pid s)]]
       | None => []
       end /\
  count (is_parent_call "onChildReady") (output_of (destructor s)) = 0%nat /\
  count is_teardown (output_of (destructor s)) = held s.
Proof.
  unfold destructor, stop. rewrite !stopPrivate_eq. unfold freed, held.
  destruct (_pipeline s); repeat split; reflexivity.
Qed.

(** X19.  The constructor leaves a streamer exactly when the session bus is
    connected, the object can be registered and the parent's interface is
    valid; otherwise the process ends with code 12, 13 or 14, by the first
    check that fails, and the parent is never called.  A streamer that is
    left has made the one call [onChildReady] and holds no pipeline: [stop]
    on it does nothing, and its first [stream] call frees nothing and creates
    the pipeline with handle 0. *)
Theorem construct_checks
    (bus : SessionBus) (me : Z)
    (device address : string) (port : Z) (profile : string) (vaapi : bool) :
  match construct bus me with
  | inl code =>
      code = (if negb (isConnected bus) then 12
              else if negb (registerObject bus) then 13 else 14) /\
      isConnected bus && registerObject bus && isValid bus = false
  | inr (s, calls) =>
      isConnected bus && registerObject bus && isValid bus = true /\
      calls = [ParentCall "onChildReady" [ArgInt64 me]] /\
      pid s = me /\
      stop s = (tt, s, []) /\
      output_of (stream device address port profile vaapi s)
      = startup me 0
          (createRtpV4L2EncodeString device address port profile vaapi)
  end.
Proof.
  unfold construct.
  destruct (isConnected bus), (registerObject bus), (isValid bus);
    cbn [negb andb]; try (split; reflexivity).
  repeat split; try reflexivity.
Qed.

End PipelineRuns.

(* ------------------------------------------------------------------------- *)
(** * Further properties of the controller                                   *)
(* ------------------------------------------------------------------------- *)

Section Controller.

Import MainController.

Context (K : Constants).
Context {R : Type} {Rec : CsvRecorder R}.

Local Abbreviation State := (@MainController.State R).

Ltac results := rewrite ?state_of_result, ?output_of_result, ?app_nil_r.

Lemma run_tagged (es : list Event) (s : State) :
  Forall (tagged K) (sent (output_of (run K es s))).
Proof.
  revert s. induction es as [|e es IH]; intros s; [constructor|].
  rewrite run_cons. results. rewrite sent_app. apply Forall_app. split.
  - destruct e; cbn [handle].
    + apply toggle_tagged.
    + apply settings_tagged.
    + apply received_tagged.
    + rewrite elapse_eq. apply fire_tagged.
  - apply IH.
Qed.

(** X20.  Whatever the controller sends can be read back the way its own
    dispatcher reads: every message sent holds at least the four bytes of a
    tag, and reading a 32-bit integer from it gives the tag it was sent with
    and leaves exactly the fields of that tag. *)
Theorem sent_messages_read_back (es : list Event) (s : State) :
  Forall (fun m =>
            (4 <= length m)%nat /\
            exists t payload,
              read_qint32 m = (tagCode K t, payload) /\
              m = write_qint32 (tagCode K t) ++ payload /\
              layout t payload)
    (sent (output_of (run K es s))).
Proof.
  eapply Forall_impl; [|apply run_tagged].
  intros m (t & payload & -> & Hl). split.
  - rewrite length_app. unfold write_qint32. rewrite be_bytes_length. lia.
  - exists t, payload. split; [|split; [reflexivity | exact Hl]].
    apply read_write_qint32, tagCode_qint32.
Qed.

Lemma shown_sequence_app (w : Window) (a b : list Effect) :
  shown_sequence w (a ++ b) = shown_sequence w a ++ shown_sequence w b.
Proof.
  induction a as [|e a IH]; [reflexivity|].
  destruct e as [| |w' st| | | | | | | | | |]; cbn [app shown_sequence];
    rewrite IH; try reflexivity.
  now destruct (Window_eqb w w').
Qed.

Lemma other_message_frame (message : list byte) (s : State) :
  fst (read_qint32 message) <> tagCode K SharedMessage_StartDataRecording ->
  state_of (onMainChannelMessageReceived K message s) = s /\
  sent (output_of (onMainChannelMessageReceived K message s)) = [] /\
  (forall w,
     shown_sequence w (output_of (onMainChannelMessageReceived K message s)) = []).
Proof.
  intros Hne. unfold onMainChannelMessageReceived.
  destruct (read_qint32 message) as [messageType stream]. cbn [fst] in Hne.
  repeat match goal with
         | |- context [if ?x =? ?y then _ else _] =>
             destruct (Z.eqb_spec x y)
         end; try (exfalso; apply Hne; assumption);
    try (repeat split; intros []; reflexivity).
  - destruct (read_bool stream) as [[] ?]; repeat split; intros []; reflexivity.
  - destruct (read_qint32 stream) as [mediaId ?]. unfold bind, gets.
    destruct (mediaId =? audioMediaId s); repeat split; intros []; reflexivity.
  - destruct (read_QByteArray stream). repeat split; intros []; reflexivity.
Qed.

Lemma other_messages_frame (messages : list (list byte)) (s : State) :
  Forall (fun m => fst (read_qint32 m)
                   <> tagCode K SharedMessage_StartDataRecording) messages ->
  state_of (run K (map MessageReceived messages) s) = s /\
  sent (output_of (run K (map MessageReceived messages) s)) = [] /\
  (forall w,
     shown_sequence w (output_of (run K (map MessageReceived messages) s)) = []).
Proof.
  induction 1 as [|m messages Hm Hms IH]; [repeat split; reflexivity|].
  cbn [map]. rewrite run_cons. cbn [handle]. results.
  destruct (other_message_frame m s Hm) as (H1 & H2 & H3).
  rewrite H1. destruct IH as (I1 & I2 & I3).
  rewrite sent_app, H2, I2. repeat split; try assumption.
  intros w. now rewrite shown_sequence_app, H3, I3.
Qed.

(** X21.  Only a start-recording message acknowledges a request.  After a
    click on the record button, any number of messages with other tags
    followed by 5000 ms or more lead to the timeout all the same: the stop
    message is the only one sent after the request, every window goes from
    Waiting to Idle, and the operator is told that the rover has not
    responded. *)
Theorem only_start_message_acknowledges
    (messages : list (list byte)) (d : Z) (s : State) :
  isRecording (_dataRecorder s) = false ->
  timers s = [] ->
  5000 <= d ->
  Forall (fun m => fst (read_qint32 m)
                   <> tagCode K SharedMessage_StartDataRecording) messages ->
  let final :=
    run K (RecordButtonClicked :: map MessageReceived messages ++ [Elapse d]) s in
  sent (output_of final) = [startMessage K (clock s); stopMessage K] /\
  (forall w, shown_sequence w (output_of final)
             = [RecordingState_Waiting; RecordingState_Idle]) /\
  In timeoutNotification (output_of final) /\
  (forall w, shown w (state_of final) = RecordingState_Idle) /\
  isRecording (_dataRecorder (state_of final)) = false /\
  timers (state_of final) = [].
Proof.
  intros Hrec Ht Hd Hms final. subst final.
  rewrite run_cons. cbn [handle].
  rewrite toggle_not_recording, startDataRecording_eq by exact Hrec. results.
  rewrite run_app.
  destruct (other_messages_frame messages (requested s) Hms) as (H1 & H2 & H3).
  rewrite H1. results.
  rewrite run_cons, run_nil. cbn [handle]. results.
  rewrite (elapse_one_due K (clock s + 5000));
    [ | cbn; now rewrite Ht | cbn; lia ].
  rewrite watchdog_not_recording by exact Hrec. results.
  split; [|split; [|split; [|split; [|split]]]].
  - cbn [sent]. rewrite !sent_app, H2. reflexivity.
  - intros w. change (?a :: ?l ++ ?b) with ((a :: l) ++ b).
    rewrite !shown_sequence_app, H3. destruct w; reflexivity.
  - right. apply in_or_app. right. apply in_or_app. right.
    apply in_or_app. right. right. now left.
  - intros []; reflexivity.
  - apply stopLog_not_recording.
  - reflexivity.
Qed.

(** X22.  A start-recording message is honoured whenever it comes.  When it
    arrives after the request has timed out, and the recorder can start, the
    recorder starts all the same and the control and comments windows show
    Recording, although the operator has been told that the rover did not
    respond and the rover has been sent a stop message. *)
Theorem late_acknowledgment_starts_recording
    (s : State) (payload : list byte) (d : Z) :
  isRecording (_dataRecorder s) = false ->
  timers s = [] ->
  5000 <= d ->
  fst (startLog (clock s) (stopLog (_dataRecorder s))) = true ->
  let ack := write_qint32 (tagCode K SharedMessage_StartDataRecording) ++ payload in
  let final := run K [RecordButtonClicked; Elapse d; MessageReceived ack] s in
  shown_sequence controlWindow (output_of final)
    = [RecordingState_Waiting; RecordingState_Idle; RecordingState_Recording] /\
  shown_sequence mainWindow (output_of final)
    = [RecordingState_Waiting; RecordingState_Idle] /\
  sent (output_of final) = [startMessage K (clock s); stopMessage K] /\
  count is_error_notification (output_of final) = 1%nat /\
  isRecording (_dataRecorder (state_of final)) = true /\
  timers (state_of final) = [].
Proof.
  intros Hrec Ht Hd Hok ack final. subst final.
  rewrite !run_cons, run_nil. cbn [handle].
  rewrite toggle_not_recording, startDataRecording_eq by exact Hrec. results.
  rewrite (elapse_one_due K (clock s + 5000));
    [ | cbn; now rewrite Ht | cbn; lia ].
  rewrite watchdog_not_recording by exact Hrec. results.
  subst ack. rewrite start_message_started by exact Hok. results.
  repeat split; try reflexivity.
  apply (startLog_recording (clock s) (stopLog (_dataRecorder s))). exact Hok.
Qed.

Lemma audio_change_eq (state : MediaClientState) (format : AudioFormat)
    (s : State) :
  onAudioClientStateChanged state format s
  = match state with
    | StreamingState =>
        (tt, set_settings (set_enableAudio true (_settings s)) s,
         [Play format;
          UpdateFromSettingsModel (set_enableAudio true (_settings s))])
    | ConnectingState =>
        (tt, set_settings (set_enableAudio false (_settings s)) s,
         [StopPlayer;
          UpdateFromSettingsModel (set_enableAudio false (_settings s))])
    | OtherState => (tt, s, [])
    end.
Proof. destruct state; reflexivity. Qed.

Lemma audio_step (state : MediaClientState) (format : AudioFormat)
    (rest : list (MediaClientState * AudioFormat)) (s : State) :
  audioClientStates ((state, format) :: rest) s
  = (tt,
     state_of (audioClientStates rest
                 (state_of (onAudioClientStateChanged state format s))),
     output_of (onAudioClientStateChanged state format s)
     ++ output_of (audioClientStates rest
                     (state_of (onAudioClientStateChanged state format s)))).
Proof.
  cbn [audioClientStates]. unfold bind at 1. unfold state_of, output_of.
  destruct (onAudioClientStateChanged state format s) as [[[] s1] o1].
  cbn [fst snd].
  destruct (audioClientStates rest s1) as [[[] s2] o2]. reflexivity.
Qed.

(** X23.  State changes of the audio client touch nothing but the
    audio-enabled flag of the settings: after any sequence of them the flag
    is as the last change to Streaming or Connecting left it, every other
    setting and the recording handshake are as before, and the control
    window has been refreshed once for every change to Streaming or
    Connecting. *)
Theorem audio_client_changes_flag_only
    (changes : list (MediaClientState * AudioFormat)) (s : State) :
  let final := state_of (audioClientStates changes s) in
  _settings final
  = set_enableAudio (audioEnabledAfter (enableAudio (_settings s)) changes)
      (_settings s) /\
  _dataRecorder final = _dataRecorder s /\
  timers final = timers s /\
  _recordStartTime final = _recordStartTime s /\
  (forall w, shown w final = shown w s) /\
  count (fun c => match c with UpdateFromSettingsModel _ => true | _ => false end)
    (output_of (audioClientStates changes s))
  = count (fun c => match fst c with OtherState => false | _ => true end) changes.
Proof.
  revert s. induction changes as [|[state format] changes IH]; intros s final;
    subst final.
  - repeat split; try (intros []; reflexivity).
    cbn. now destruct (_settings s).
  - rewrite audio_step, !audio_change_eq, count_cons.
    cbn [audioEnabledAfter fst].
    destruct state;
      [ specialize (IH (set_settings (set_enableAudio true (_settings s)) s))
      | specialize (IH (set_settings (set_enableAudio false (_settings s)) s))
      | specialize (IH s) ];
      cbv zeta in IH; destruct IH as (I1 & I2 & I3 & I4 & I5 & I6);
      unfold state_of, output_of in *; cbn [fst snd app] in *;
      rewrite ?count_cons, I6;
      repeat split; try assumption; try reflexivity.
Qed.

End Controller.

(* ------------------------------------------------------------------------- *)
(** * Further properties at work                                             *)
(* ------------------------------------------------------------------------- *)

(** The controller's own stop message, sent back to it, has no effect. *)
Lemma other_messages_leave_handshake_witness :
  let K := ordinalConstants in
  let final :=
    MainController.onMainChannelMessageReceived K (stopMessage K) (atRest true 0) in
  fst (read_qint32 (stopMessage K)) <> tagCode K SharedMessage_StartDataRecording /\
  state_of final = atRest true 0 /\
  sent (output_of final) = [].
Proof.
  intros K final.
  assert (Hne : fst (read_qint32 (stopMessage K))
                <> tagCode K SharedMessage_StartDataRecording)
    by (intros H; vm_compute in H; discriminate H).
  pose proof (other_messages_leave_handshake K (stopMessage K) (atRest true 0) Hne)
    as H.
  cbv zeta in H. destruct H as (H1 & H2 & _).
  split; [exact Hne | split; [exact H1 | exact H2]].
Defined.

(** Media identifier 0 is the audio client's in [atRest]. *)
Lemma media_error_dispatch_witness :
  let K := ordinalConstants in
  - 2 ^ 31 <= 0 < 2 ^ 31 /\
  MainController.onMainChannelMessageReceived K
    (write_qint32 (tagCode K SharedMessage_RoverMediaServerError)
     ++ write_qint32 0 ++ ["e"%byte]) (atRest true 0)
  = (tt, atRest true 0, [audioStreamWarning]).
Proof.
  intros K.
  assert (Hid : - 2 ^ 31 <= 0 < 2 ^ 31) by lia.
  split; [exact Hid|].
  exact (media_error_dispatch K 0 ["e"%byte] (atRest true 0) Hid).
Defined.

Lemma sensor_update_delivers_data_witness :
  let K := ordinalConstants in
  Z.of_nat (length ["a"%byte; "b"%byte]) < 4294967295 /\
  MainController.onMainChannelMessageReceived K
    [x00; x00; x00; x05; x00; x00; x00; x02; "a"%byte; "b"%byte; "c"%byte]
    (atRest true 0)
  = (tt, atRest true 0, [NewData ["a"%byte; "b"%byte]]).
Proof.
  intros K.
  assert (Hlen : Z.of_nat (length ["a"%byte; "b"%byte]) < 4294967295)
    by (cbn; lia).
  split; [exact Hlen|].
  exact (sensor_update_delivers_data K ["a"%byte; "b"%byte] ["c"%byte]
           (atRest true 0) Hlen).
Defined.

(** Five bytes are announced, one is there. *)
Lemma sensor_update_truncated_witness :
  let K := ordinalConstants in
  Z.of_nat (length ["a"%byte]) < 5 < 4294967296 /\
  MainController.onMainChannelMessageReceived K
    [x00; x00; x00; x05; x00; x00; x00; x05; "a"%byte] (atRest true 0)
  = (tt, atRest true 0, [NewData []]).
Proof.
  intros K.
  assert (Hlen : Z.of_nat (length ["a"%byte]) < 5 < 4294967296) by (cbn; lia).
  split; [exact Hlen|].
  exact (sensor_update_truncated K 5 ["a"%byte] (atRest true 0) Hlen).
Defined.

(** The empty message, with tags numbered from one and from zero. *)
Lemma short_message_is_tag_zero_witness :
  (length (@nil byte) < 4)%nat /\
  (forall t, In t case_labels -> tagCode ordinalFromOneConstants t <> 0) /\
  tagCode ordinalConstants SharedMessage_RoverStatusUpdate = 0 /\
  MainController.onMainChannelMessageReceived ordinalFromOneConstants []
    (atRest true 0) = (tt, atRest true 0, []) /\
  MainController.onMainChannelMessageReceived ordinalConstants []
    (atRest true 0) = (tt, atRest true 0, mbedLost).
Proof.
  assert (Hlen : (length (@nil byte) < 4)%nat) by (cbn; lia).
  assert (Hnz : forall t, In t case_labels -> tagCode ordinalFromOneConstants t <> 0)
    by (intros t _; destruct t; discriminate).
  split; [exact Hlen | split; [exact Hnz | split; [reflexivity | split]]].
  - exact (proj1 (short_message_is_tag_zero ordinalFromOneConstants []
                    (atRest true 0) Hlen) Hnz).
  - exact (proj2 (short_message_is_tag_zero ordinalConstants []
                    (atRest true 0) Hlen) eq_refl).
Defined.

(** After a click at time 0: 2000 ms and 4000 ms, or 6000 ms at once. *)
Lemma elapse_in_two_steps_witness :
  let K := ordinalConstants in
  let s :=
    state_of (MainController.run K [MainController.RecordButtonClicked]
                (atRest true 0)) in
  0 <= 4000 /\
  MainController.run K [MainController.Elapse 2000; MainController.Elapse 4000] s
  = MainController.run K [MainController.Elapse (2000 + 4000)] s /\
  count is_error_notification
    (output_of (MainController.run K [MainController.Elapse (2000 + 4000)] s))
  = 1%nat.
Proof.
  intros K s.
  assert (Hb : 0 <= 4000) by lia.
  split; [exact Hb | split; [|reflexivity]].
  exact (elapse_in_two_steps K 2000 4000 s Hb).
Defined.

(** Three clicks, then 5000 ms. *)
Lemma every_click_times_out_witness :
  let K := ordinalConstants in
  let s := atRest true 0 in
  let final :=
    MainController.run K
      (repeat MainController.RecordButtonClicked 3 ++ [MainController.Elapse 5000])
      s in
  isRecording (MainController._dataRecorder s) = false /\
  MainController.timers s = [] /\
  5000 <= 5000 /\
  count (is_message (stopMessage K)) (output_of final) = 3%nat /\
  count is_error_notification (output_of final) = 3%nat.
Proof.
  intros K s final.
  pose proof (every_click_times_out K 3 5000 s eq_refl eq_refl ltac:(lia)) as H.
  cbv zeta in H. destruct H as (_ & H2 & H3 & _).
  split; [reflexivity | split; [reflexivity | split; [lia | split]]];
    [exact H2 | exact H3].
Defined.

(** Two requests 1000 ms apart, seen 4000 ms after the second: the first
    watchdog has run, the second is 1000 ms away. *)
Lemma timers_stay_in_window_witness :
  let K := ordinalConstants in
  let es :=
    [ MainController.RecordButtonClicked; MainController.Elapse 1000;
      MainController.RecordButtonClicked; MainController.Elapse 4000 ] in
  let final := state_of (MainController.run K es (atRest true 0)) in
  Forall forward es /\
  timers_in_window (atRest true 0) /\
  MainController.timers final = [6000] /\
  MainController.clock final = 5000 /\
  timers_in_window final.
Proof.
  intros K es final.
  assert (Hes : Forall forward es) by (repeat constructor; cbn; lia).
  assert (Hs : timers_in_window (atRest true 0)) by constructor.
  split; [exact Hes | split; [exact Hs | split; [reflexivity | split; [reflexivity|]]]].
  exact (timers_stay_in_window K es (atRest true 0) Hes Hs).
Defined.

(** Start at 0, acknowledgment at 1000, stop at 2000, watchdog at 5000. *)
Lemma early_stop_still_times_out_witness :
  let K := ordinalConstants in
  let s := atRest true 0 in
  let stopped_early :=
    MainController.run K
      [ MainController.RecordButtonClicked; MainController.Elapse 1000;
        MainController.MessageReceived (startMessage K 0);
        MainController.Elapse 1000; MainController.RecordButtonClicked ] s in
  isRecording (MainController._dataRecorder s) = false /\
  MainController.timers s = [] /\
  0 <= 1000 /\ 1000 + 1000 < 5000 /\ 5000 <= 1000 + 1000 + 3000 /\
  fst (startLog (MainController.clock s) (MainController._dataRecorder s)) = true /\
  output_of (MainController.elapse K 3000 (state_of stopped_early))
  = shownAll RecordingState_Idle
    ++ [SendMessage (stopMessage K); timeoutNotification].
Proof.
  intros K s stopped_early.
  pose proof (early_stop_still_times_out K s (write_qint64 0) 1000 1000 3000
                eq_refl eq_refl ltac:(lia) ltac:(lia) ltac:(lia) ltac:(lia)
                eq_refl) as H.
  cbv zeta in H. destruct H as (_ & _ & _ & H4 & _).
  split; [reflexivity | split; [reflexivity | split; [lia | split; [lia|]]]].
  split; [lia | split; [reflexivity | exact H4]].
Defined.

Lemma restart_frees_first_witness :
  let mono := VideoStreamer.stream deviceOnly "video0" "host" 5000 "p" false streaming in
  VideoStreamer._pipeline streaming = Some 0%nat /\
  handle_known streaming /\
  output_of mono = teardown 4242 0 false ++ startup 4242 1 "video0" /\
  count (is_parent_call "onChildReady") (output_of mono) = 0%nat.
Proof.
  intros mono.
  assert (Hk : handle_known streaming)
    by (intros p Hp; injection Hp as <-; cbn; lia).
  pose proof (restart_frees_first deviceOnly leftDeviceOnly
                "video0" "l" "r" "host" 5000 "p" false 0 streaming eq_refl Hk) as H.
  cbv zeta in H. destruct H as (H1 & _ & _ & _ & _ & H6 & _).
  split; [reflexivity | split; [exact Hk | split; [exact H1 | exact H6]]].
Defined.

(** The stop message echoed and a status update arrive instead of the
    acknowledgment. *)
Lemma only_start_message_acknowledges_witness :
  let K := ordinalConstants in
  let s := atRest true 0 in
  let messages := [stopMessage K; [x00; x00; x00; x00; x01]] in
  let final :=
    MainController.run K
      (MainController.RecordButtonClicked
       :: map MainController.MessageReceived messages
       ++ [MainController.Elapse 5000]) s in
  isRecording (MainController._dataRecorder s) = false /\
  MainController.timers s = [] /\
  5000 <= 5000 /\
  Forall (fun m => fst (read_qint32 m)
                   <> tagCode K SharedMessage_StartDataRecording) messages /\
  sent (output_of final) = [startMessage K 0; stopMessage K] /\
  In timeoutNotification (output_of final).
Proof.
  intros K s messages final.
  assert (Hms : Forall (fun m => fst (read_qint32 m)
                   <> tagCode K SharedMessage_StartDataRecording) messages)
    by (repeat constructor; intros H; vm_compute in H; discriminate H).
  pose proof (only_start_message_acknowledges K messages 5000 s
                eq_refl eq_refl ltac:(lia) Hms) as H.
  cbv zeta in H. destruct H as (H1 & _ & H3 & _).
  split; [reflexivity | split; [reflexivity | split; [lia | split; [exact Hms|]]]].
  split; [exact H1 | exact H3].
Defined.

(** The request of time 1000 times out at 6000; the acknowledgment comes
    after that. *)
Lemma late_acknowledgment_starts_recording_witness :
  let K := ordinalConstants in
  let s := atRest true 1000 in
  let final :=
    MainController.run K
      [ MainController.RecordButtonClicked; MainController.Elapse 5000;
        MainController.MessageReceived (startMessage K 1000) ] s in
  isRecording (MainController._dataRecorder s) = false /\
  MainController.timers s = [] /\
  5000 <= 5000 /\
  fst (startLog (MainController.clock s)
         (stopLog (MainController._dataRecorder s))) = true /\
  isRecording (MainController._dataRecorder (state_of final)) = true /\
  sent (output_of final) = [startMessage K 1000; stopMessage K] /\
  count is_error_notification (output_of final) = 1%nat.
Proof.
  intros K s final.
  pose proof (late_acknowledgment_starts_recording K s (write_qint64 1000) 5000
                eq_refl eq_refl ltac:(lia) eq_refl) as H.
  cbv zeta in H. destruct H as (_ & _ & H3 & H4 & H5 & _).
  split; [reflexivity | split; [reflexivity | split; [lia | split; [reflexivity|]]]].
  split; [exact H5 | split; [exact H3 | exact H4]].
Defined.
